(** * cryptoauthlib/library.py: the ctypes binding layer

    A shallow embedding of [python/cryptoauthlib/library.py] and the
    properties of its device tables, its size introspection, its structure
    marshalling and its byte buffers.

    Conventions of the embedding.
    - A Python [dict] is a [gmap]; [d.get(k)] is the lookup [d !! k], whose
      [None] is Python's [None]; [d.get(k, v)] is [default v (d !! k)].
    - A raised exception is the left summand of [result].
    - Text is a [string] of ASCII characters, as every name of this module
      is; [upper] is [str.upper] on that range. *)

From Stdlib Require Import ZArith Lia Bool Ascii String.
From stdpp Require Import gmap strings list fin_maps.

Local Open Scope string_scope.
Local Open Scope list_scope.
Local Open Scope Z_scope.

(** ** Exceptions *)

Inductive exception : Set :=
| IndexError
| ValueError
| TypeError
| AttributeError
| UnicodeEncodeError
| LibraryLoadError.

Definition result (A : Type) : Type := exception + A.

Abbreviation Ok a := (inr a).
Abbreviation Raise e := (inl e).

Definition rbind {A B : Type} (m : result A) (k : A -> result B) : result B :=
  match m with
  | inl e => inl e
  | inr a => k a
  end.

Notation "'let*' x ':=' m 'in' k" := (rbind m (fun x => k))
  (at level 10, x name, m at level 100, k at level 200).

(** ** Text *)

(** [str.upper] on one ASCII character: the letters a..z (97..122) move down
    by 32, every other character is kept. *)
Definition upper_char (c : ascii) : ascii :=
  let n := N_of_ascii c in
  if ((97 <=? n) && (n <=? 122))%N then ascii_of_N (n - 32) else c.

Fixpoint upper (s : string) : string :=
  match s with
  | EmptyString => EmptyString
  | String c s' => String (upper_char c) (upper s')
  end.

(** ** Device metadata *)

Module Device.

(** Maps common name to the specific name used internally. *)
Definition ATCA_NAMES : gmap string string :=
  {[ "i2c" := "i2c"; "hid" := "kithid"; "sha" := "sha204";
     "ecc" := "eccx08" ]}.

(** The table of [get_device_name]: third revision byte to device name. *)
Definition name_table : gmap Z string :=
  {[ 0x10 := "ATECC108A";
     0x50 := "ATECC508A";
     0x60 := "ATECC608";
     0x20 := "ECC204";
     0x00 := "ATSHA204A";
     0x02 := "ATSHA204A";
     0x40 := "ATSHA206A" ]}.

(** [revision[2]]: an [IndexError] on a sequence of fewer than 3 items. *)
Definition subscript {A : Type} (l : list A) (i : nat) : result A :=
  match l !! i with
  | Some x => Ok x
  | None => Raise IndexError
  end.

Definition get_device_name (revision : list Z) : result string :=
  let devices := name_table in
  let* b := subscript revision 2 in
  let device_name := default "UNKNOWN" (devices !! b) in
  Ok device_name.

(** The table of [get_device_type_id]: device name to ATCADeviceType. *)
Definition type_id_table : gmap string Z :=
  {[ "ATSHA204A" := 0;
     "ATECC108A" := 1;
     "ATECC508A" := 2;
     "ATECC608A" := 3;
     "ATECC608B" := 3;
     "ATECC608" := 3;
     "ATSAH206A" := 4;
     "ECC204" := 5;
     "UNKNOWN" := 0x20 ]}.

(** [devices.get(name.upper())]: no default is given, so an absent name
    gives Python's [None]. *)
Definition get_device_type_id (name : string) : option Z :=
  let devices := type_id_table in
  devices !! upper name.

(** The two lookups in sequence: the type code of the device a revision
    names. *)
Definition device_type_of_revision (revision : list Z)
  : result (option Z) :=
  let* name := get_device_name revision in
  Ok (get_device_type_id name).

(** The keys of the two tables, in the order of the source. *)
Definition name_keys : list Z :=
  [0x10; 0x50; 0x60; 0x20; 0x00; 0x02; 0x40].

Definition type_id_keys : list string :=
  ["ATSHA204A"; "ATECC108A"; "ATECC508A"; "ATECC608A"; "ATECC608B";
   "ATECC608"; "ATSAH206A"; "ECC204"; "UNKNOWN"].

End Device.

(** ** The ctypes runtime

    The part of [ctypes] the module calls: classes with a fixed layout,
    instances that own their bytes, and the primitives [sizeof], [memmove],
    [from_buffer_copy] and the class call. A byte is a [Z] in 0..255. *)

Module Ctypes.

Inductive byteorder : Set := LittleEndian | BigEndian.

(** The simple types the module names. *)
Inductive simple : Set := U8 | U16 | U32 | Char.

(** The base of a class with [_fields_]. *)
Inductive base : Set := Structure | Union | AtcaStructure | AtcaUnion.

(** A ctypes class. A class with [_fields_] carries its name (classes
    are compared by identity), the size ctypes computed for it and, for
    every field, the name, the type and the offset of its descriptor. *)
#[warnings="-register-all"]
Inductive ctype : Type :=
| Simple (k : simple)
| Array (elem : ctype) (len : nat)
| Class (b : base) (name : string) (size : nat)
        (fields : list (string * ctype * nat)).

Definition c_uint8 : ctype := Simple U8.
Definition c_uint16 : ctype := Simple U16.
Definition c_uint32 : ctype := Simple U32.
Definition c_char : ctype := Simple Char.
(** [c_uint] is the 4-byte unsigned type. *)
Definition c_uint : ctype := c_uint32.

Definition simple_size (k : simple) : nat :=
  match k with
  | U8 | Char => 1
  | U16 => 2
  | U32 => 4
  end.

(** [sizeof(T)] of a class. *)
Fixpoint sizeof_type (T : ctype) : nat :=
  match T with
  | Simple k => simple_size k
  | Array t n => n * sizeof_type t
  | Class _ _ size _ => size
  end.

(** The identity of a class: what [is] and [isinstance] compare. Two
    classes with [_fields_] are the same class when they have the same
    name; subclasses of the classes at hand are not modelled. *)
Inductive tid : Set :=
| TSimple (k : simple)
| TArray (t : tid) (n : nat)
| TClass (name : string).

Fixpoint type_id (T : ctype) : tid :=
  match T with
  | Simple k => TSimple k
  | Array t n => TArray (type_id t) n
  | Class _ name _ _ => TClass name
  end.

#[global] Instance simple_eq_dec : EqDecision simple.
Proof. solve_decision. Defined.

#[global] Instance tid_eq_dec : EqDecision tid.
Proof. solve_decision. Defined.

Definition same_type (T U : ctype) : bool :=
  bool_decide (type_id T = type_id U).

(** An instance: its class and the bytes it owns. *)
Record cdata : Type := CData { ob_type : ctype; b_ptr : list Z }.

(** [sizeof(obj)] of an instance is the size of its buffer. *)
Definition sizeof (obj : cdata) : nat := length (b_ptr obj).

(** What an initialiser keeps: the class and the size of the buffer. *)
Definition same_shape (o o' : cdata) : Prop :=
  ob_type o' = ob_type o /\ sizeof o' = sizeof o.

(** A fresh instance: [sizeof(T)] zero bytes. *)
Definition new (T : ctype) : cdata :=
  CData T (replicate (sizeof_type T) 0).

(** Python values that reach the marshalling functions. *)
#[warnings="-register-all"]
Inductive pyval : Type :=
| PNone
| PBool (b : bool)
| PInt (z : Z)
| PStr (s : string)
| PBytes (bs : list Z)
| PList (l : list pyval)
| PDict (d : list (string * pyval))
| PEnum (value : Z)
| PCData (o : cdata).

(** Keyword arguments, and every mapping: a [dict] with [str] keys, in
    insertion order. *)
Definition kwargs : Type := list (string * pyval).

Fixpoint kw_get (k : string) (d : kwargs) : option pyval :=
  match d with
  | [] => None
  | (k', v) :: d' => if bool_decide (k' = k) then Some v else kw_get k d'
  end.

(** [d[k] = v] on a key that is present: the entry keeps its place. *)
Fixpoint kw_set (k : string) (v : pyval) (d : kwargs) : kwargs :=
  match d with
  | [] => [(k, v)]
  | (k', v') :: d' =>
      if bool_decide (k' = k) then (k, v) :: d' else (k', v') :: kw_set k v d'
  end.

(** *** Bytes of integers *)

Fixpoint le_bytes (n : nat) (z : Z) : list Z :=
  match n with
  | O => []
  | S n' => (z mod 256) :: le_bytes n' (z / 256)
  end.

(** The [n]-byte unsigned representation of [z], wrapped to [8n] bits. *)
Definition encode (order : byteorder) (n : nat) (z : Z) : list Z :=
  match order with
  | LittleEndian => le_bytes n z
  | BigEndian => rev (le_bytes n z)
  end.

Fixpoint le_value (bs : list Z) : Z :=
  match bs with
  | [] => 0
  | b :: bs' => b + 256 * le_value bs'
  end.

Definition decode (order : byteorder) (bs : list Z) : Z :=
  match order with
  | LittleEndian => le_value bs
  | BigEndian => le_value (rev bs)
  end.

(** *** Memory *)

(** Write [data] into [buf] at [off]; the buffer keeps its size. *)
Definition write_at (buf : list Z) (off : nat) (data : list Z) : list Z :=
  take (length buf) (take off buf ++ data ++ drop (off + length data) buf).

(** [memmove(dst, src, n)] on the bytes of the destination. Every caller
    checks or knows that the source has [n] bytes; a shorter source gives
    what it has. *)
Definition memmove (dst : list Z) (src : list Z) (n : nat) : list Z :=
  write_at dst 0 (take n src).

(** [T.from_buffer_copy(source)]: [ValueError] when the source is
    smaller than [T], else an instance holding the first [sizeof(T)]
    bytes of the source. *)
Definition from_buffer_copy (T : ctype) (source : cdata) : result cdata :=
  if (sizeof source <? sizeof_type T)%nat then Raise ValueError
  else Ok (CData T (take (sizeof_type T) (b_ptr source))).

(** [create_string_buffer(n)] for an integer [n], and its [raw]. *)
Definition create_string_buffer (n : nat) : cdata := new (Array c_char n).

Definition raw (buf : cdata) : list Z := b_ptr buf.

(** *** Builtins on values *)

(** [isinstance(v, int)], with the integer: [bool] is a subclass of
    [int]. *)
Definition as_int (v : pyval) : option Z :=
  match v with
  | PInt z => Some z
  | PBool b => Some (Z.b2z b)
  | _ => None
  end.

Definition is_byte (z : Z) : bool := (0 <=? z) && (z <? 256).

(** [isinstance(v, T)] for a ctypes class [T]. *)
Definition isinstance (v : pyval) (T : ctype) : bool :=
  match v with
  | PCData o => same_type (ob_type o) T
  | _ => false
  end.

Fixpoint chunks (size : nat) (n : nat) (bs : list Z) : list (list Z) :=
  match n with
  | O => []
  | S n' => take size bs :: chunks size n' (drop size bs)
  end.

Fixpoint chars (s : string) : list string :=
  match s with
  | EmptyString => []
  | String c s' => String c EmptyString :: chars s'
  end.

Fixpoint mapM {A B : Type} (f : A -> result B) (l : list A)
  : result (list B) :=
  match l with
  | [] => Ok []
  | a :: l' =>
      let* b := f a in
      let* bs := mapM f l' in
      Ok (b :: bs)
  end.

(** [s.encode('ascii')]. *)
Fixpoint encode_ascii (s : string) : result (list Z) :=
  match s with
  | EmptyString => Ok []
  | String c s' =>
      let n := Z.of_N (N_of_ascii c) in
      if n <? 128 then
        let* bs := encode_ascii s' in Ok (n :: bs)
      else Raise UnicodeEncodeError
  end.

Section Runtime.

(** The byte order of the host. *)
Variable order : byteorder.

(** [c_uint(z)]: no overflow check, the value wraps to 32 bits. *)
Definition c_uint_new (z : Z) : cdata :=
  CData c_uint (encode order (sizeof_type c_uint) z).

(** The item at an index of an array instance, as Python sees it. *)
Definition item_value (t : ctype) (bs : list Z) : pyval :=
  match t with
  | Simple Char => PBytes bs
  | Simple _ => PInt (decode order bs)
  | _ => PCData (CData t bs)
  end.

(** [len(v)]. *)
Definition py_len (v : pyval) : result nat :=
  match v with
  | PStr s => Ok (String.length s)
  | PBytes bs => Ok (length bs)
  | PList l => Ok (length l)
  | PDict d => Ok (length d)
  | PCData (CData (Array _ n) _) => Ok n
  | _ => Raise TypeError
  end.

(** [list(v)]. *)
Definition py_list (v : pyval) : result (list pyval) :=
  match v with
  | PStr s => Ok (PStr <$> chars s)
  | PBytes bs => Ok (PInt <$> bs)
  | PList l => Ok l
  | PDict d => Ok ((fun kv => PStr (fst kv)) <$> d)
  | PCData (CData (Array t n) bs) =>
      Ok (item_value t <$> chunks (sizeof_type t) n bs)
  | _ => Raise TypeError
  end.

(** One item of [bytes(iterable)]. *)
Definition byte_item (v : pyval) : result Z :=
  match as_int v with
  | Some z => if is_byte z then Ok z else Raise ValueError
  | None => Raise TypeError
  end.

(** [bytes(v)] for a value that is not a [str]. *)
Definition py_bytes (v : pyval) : result (list Z) :=
  match v with
  | PBytes bs => Ok bs
  | PInt z =>
      if z <? 0 then Raise ValueError else Ok (replicate (Z.to_nat z) 0)
  | PBool b => Ok (replicate (Z.to_nat (Z.b2z b)) 0)
  | PCData o => Ok (b_ptr o)
  | PList l => mapM byte_item l
  | PDict [] => Ok []
  | _ => Raise TypeError
  end.

(** *** Setters *)

(** The setter of a simple type: the unsigned integers take an [int]
    and wrap it, [c_char] takes one byte. *)
Definition simple_set (k : simple) (v : pyval) : result (list Z) :=
  match k with
  | Char =>
      match v with
      | PBytes [b] => Ok [b]
      | PInt z => if is_byte z then Ok [z] else Raise TypeError
      | PBool b => Ok [Z.b2z b]
      | _ => Raise TypeError
      end
  | _ =>
      match as_int v with
      | Some z => Ok (encode order (simple_size k) z)
      | None => Raise TypeError
      end
  end.

Fixpoint strlen (bs : list Z) : nat :=
  match bs with
  | [] => O
  | b :: bs' => if b =? 0 then O else S (strlen bs')
  end.

(** The setter of a field that is an array of [c_char]: the bytes up to
    the first NUL, with the NUL when there is room for it. *)
Definition char_array_set (n : nat) (v : pyval) : result (list Z) :=
  match v with
  | PBytes bs =>
      let size := strlen bs in
      if (size <? n)%nat then Ok (take size bs ++ [0])
      else if (n <? size)%nat then Raise ValueError
      else Ok (take size bs)
  | _ => Raise TypeError
  end.

(** The store into a slot of type [T], a field or an array item. An
    instance of [T] is copied byte for byte, an instance of another class
    is refused; a value that is no instance goes to the setter of a simple
    [T] and is refused by any other [T]. *)
Definition slot_set (T : ctype) (v : pyval) : result (list Z) :=
  match v with
  | PCData o =>
      if same_type (ob_type o) T then Ok (take (sizeof_type T) (b_ptr o))
      else Raise TypeError
  | _ =>
      match T with
      | Simple k => simple_set k v
      | _ => Raise TypeError
      end
  end.

(** A field that is an array of [c_char] has the setter above; every
    other field is a slot. *)
Definition field_set (ft : ctype) (v : pyval) : result (list Z) :=
  match ft with
  | Array (Simple Char) n => char_array_set n v
  | _ => slot_set ft v
  end.

Definition item_set (t : ctype) (v : pyval) : result (list Z) :=
  slot_set t v.

(** The descriptor of a field name: the last entry of that name. *)
Fixpoint find_field (name : string) (fields : list (string * ctype * nat))
  : option (ctype * nat) :=
  match fields with
  | [] => None
  | (n, ft, off) :: fields' =>
      match find_field name fields' with
      | Some d => Some d
      | None => if bool_decide (n = name) then Some (ft, off) else None
      end
  end.

Definition fields_of (T : ctype) : list (string * ctype * nat) :=
  match T with
  | Class _ _ _ fields => fields
  | _ => []
  end.

(** [setattr(self, name, v)] on an instance of a class with [_fields_]:
    a field is written through its descriptor, any other name becomes an
    ordinary attribute and leaves the bytes alone. *)
Definition setattr (self : cdata) (name : string) (v : pyval)
  : result cdata :=
  match find_field name (fields_of (ob_type self)) with
  | Some (ft, off) =>
      let* data := field_set ft v in
      Ok (CData (ob_type self)
                (write_at (b_ptr self) off (take (sizeof_type ft) data)))
  | None => Ok self
  end.

(** *** Initialisers of the ctypes bases *)

Fixpoint init_pos_args (self : cdata) (fields : list (string * ctype * nat))
  (args : list pyval) (kwds : kwargs) {struct args} : result cdata :=
  match args with
  | [] => Ok self
  | a :: args' =>
      match fields with
      | [] => Raise TypeError
      | (name, _, _) :: fields' =>
          match kw_get name kwds with
          | Some _ => Raise TypeError
          | None =>
              let* self' := setattr self name a in
              init_pos_args self' fields' args' kwds
          end
      end
  end.

Fixpoint init_kwds (self : cdata) (kwds : kwargs) : result cdata :=
  match kwds with
  | [] => Ok self
  | (k, v) :: kwds' =>
      let* self' := setattr self k v in
      init_kwds self' kwds'
  end.

(** [Structure.__init__] and [Union.__init__]: the positional arguments
    go to the fields in order, then every keyword is set as an
    attribute. *)
Definition Struct_init (self : cdata) (args : list pyval) (kwds : kwargs)
  : result cdata :=
  let* self' := init_pos_args self (fields_of (ob_type self)) args kwds in
  init_kwds self' kwds.

Fixpoint set_items (t : ctype) (n : nat) (i : nat) (buf : list Z)
  (args : list pyval) : result (list Z) :=
  match args with
  | [] => Ok buf
  | a :: args' =>
      if (n <=? i)%nat then Raise IndexError
      else
        let* data := item_set t a in
        set_items t n (S i)
          (write_at buf (i * sizeof_type t) (take (sizeof_type t) data))
          args'
  end.

(** [Array.__init__]: [self[i] = args[i]]; keywords are ignored. *)
Definition Array_init (self : cdata) (t : ctype) (n : nat)
  (args : list pyval) : result cdata :=
  let* buf := set_items t n 0 (b_ptr self) args in
  Ok (CData (ob_type self) buf).

(** The initialiser of a simple type: at most one value. *)
Definition Simple_init (self : cdata) (k : simple) (args : list pyval)
  : result cdata :=
  match args with
  | [] => Ok self
  | [v] =>
      let* data := simple_set k v in
      Ok (CData (ob_type self) (write_at (b_ptr self) 0 data))
  | _ => Raise TypeError
  end.

End Runtime.

End Ctypes.

(** ** The library handle and size introspection *)

Module Handle.

(** A loaded library: its symbols, each a foreign function that is called
    here with no argument and returns an integer. *)
Record cdll : Type := CDLL { symbols : gmap string (unit -> Z) }.

(** The global [_CRYPTO_LIB]: [None] until a library is loaded. *)
Definition handle : Type := option cdll.



(** [getattr(obj, name, default)] on the handle. *)
Definition getattr (obj : handle) (name : string) (dflt : unit -> Z)
  : unit -> Z :=
  match obj with
  | Some lib => default dflt (symbols lib !! name)
  | None => dflt
  end.

Definition get_size_by_name (_CRYPTO_LIB : handle) (name : string) : Z :=
  getattr _CRYPTO_LIB (name ++ "_size")%string (fun _ => 4) tt.

(** List of basic ctypes by size. *)
Definition _CTYPES_BY_SIZE : gmap Z Ctypes.ctype :=
  {[ 1 := Ctypes.c_uint8; 2 := Ctypes.c_uint16; 4 := Ctypes.c_uint32 ]}.

Definition get_ctype_by_name (_CRYPTO_LIB : handle) (name : string)
  : option Ctypes.ctype :=
  _CTYPES_BY_SIZE !! get_size_by_name _CRYPTO_LIB name.

(** A sample library with three size symbols. *)
Definition sample_lib : cdll :=
  CDLL {[ "atca_pair_size" := fun _ => 2;
          "atca_blob_size" := fun _ => 3;
          "atca_flag_size" := fun _ => 1 ]}.

End Handle.

(** ** Marshalling *)

Module Marshal.

Import Ctypes.

(** Modelled from the spec: [AtcaEnum] lives in [atcaenum.py]; an
    enumerated value is [PEnum v], it is not an [int], and [int(value)]
    is its integer value [v]. *)
Definition int_of_enum (value : Z) : Z := value.

(** [isinstance(value, dict)] and [isinstance(value, AtcaEnum)]. *)
Definition is_mapping (value : pyval) : bool :=
  match value with
  | PDict _ => true
  | _ => false
  end.

Definition is_enum (value : pyval) : bool :=
  match value with
  | PEnum _ => true
  | _ => false
  end.

Definition is_union (T : ctype) : bool :=
  match T with
  | Class Union _ _ _ | Class AtcaUnion _ _ _ => true
  | _ => false
  end.

Definition is_structure (T : ctype) : bool :=
  match T with
  | Class Structure _ _ _ | Class AtcaStructure _ _ _ => true
  | _ => false
  end.

Definition is_array (T : ctype) : bool :=
  match T with
  | Array _ _ => true
  | _ => false
  end.

(** Does the class run the extended [__init__] of this module? *)
Definition is_atca (b : base) : bool :=
  match b with
  | AtcaStructure | AtcaUnion => true
  | _ => false
  end.

Section Functions.

Variable order : byteorder.

Section Open.

(** The call of a class on arguments and keywords, left open here: the
    functions below reach it for field and element types only. *)
Variable call : ctype -> list pyval -> kwargs -> result cdata.

Definition get_ctype_structure_instance_ (structure : ctype) (value : pyval)
  : result pyval :=
  match value with
  | PDict d =>
      let* r := call structure [] d in Ok (PCData r)
  | _ =>
      match as_int value with
      | Some z =>
          let* r := from_buffer_copy structure (c_uint_new order z) in
          Ok (PCData r)
      | None =>
          match value with
          | PEnum v =>
              let* r := from_buffer_copy structure
                          (c_uint_new order (int_of_enum v)) in
              Ok (PCData r)
          | _ =>
              if negb (isinstance value structure) then
                let* r := call structure [value] [] in Ok (PCData r)
              else Ok value
          end
      end
  end.

(** [array] is an array class at both call sites; a class without an
    element type is refused. *)
Definition get_ctype_array_instance_ (array : ctype) (value : pyval)
  : result pyval :=
  match array with
  | Array t _ =>
      if same_type t c_char then
        match value with
        | PStr s => let* a := encode_ascii s in Ok (PBytes a)
        | _ => let* a := py_bytes value in Ok (PBytes a)
        end
      else
        let* items := py_list order value in
        let* elems := mapM (get_ctype_structure_instance_ t) items in
        let* a := call array elems [] in
        Ok (PCData a)
  | _ => Raise AttributeError
  end.

(** The loop of [AtcaStructure.__init__] and [AtcaUnion.__init__] over
    [_fields_]: a keyword whose field is a union, a structure or an array
    is replaced by its marshalled value. *)
Fixpoint marshal_fields (fields : list (string * ctype * nat))
  (kw : kwargs) : result kwargs :=
  match fields with
  | [] => Ok kw
  | (name, ft, _) :: fields' =>
      let* kw' :=
        match kw_get name kw with
        | Some v =>
            if is_union ft then
              let* r := get_ctype_structure_instance_ ft v in
              Ok (kw_set name r kw)
            else if is_structure ft then
              let* r := get_ctype_structure_instance_ ft v in
              Ok (kw_set name r kw)
            else if is_array ft then
              let* r := get_ctype_array_instance_ ft v in
              Ok (kw_set name r kw)
            else Ok kw
        | None => Ok kw
        end in
      marshal_fields fields' kw'
  end.

End Open.

(** The class call, closed over the classes: a fresh zeroed instance,
    then the [__init__] of the class. *)
Fixpoint construct (T : ctype) (args : list pyval) (kw : kwargs)
  {struct T} : result cdata :=
  match T with
  | Simple k => Simple_init order (new T) k args
  | Array t n => Array_init order (new T) t n args
  | Class b _ _ fields =>
      let* kw' :=
        if is_atca b then marshal_fields construct fields kw else Ok kw in
      Struct_init order (new T) args kw'
  end.

Definition get_ctype_structure_instance : ctype -> pyval -> result pyval :=
  get_ctype_structure_instance_ construct.

Definition get_ctype_array_instance : ctype -> pyval -> result pyval :=
  get_ctype_array_instance_ construct.

(** [AtcaStructure.__init__(self, *args, **kwargs)]. *)
Definition AtcaStructure_init (self : cdata) (args : list pyval)
  (kw : kwargs) : result cdata :=
  let* kw' := marshal_fields construct (fields_of (ob_type self)) kw in
  Struct_init order self args kw'.

(** [AtcaUnion.__init__(self, *args, **kwargs)]. *)
Definition AtcaUnion_init (self : cdata) (args : list pyval)
  (kw : kwargs) : result cdata :=
  let* kw' := marshal_fields construct (fields_of (ob_type self)) kw in
  Struct_init order self args kw'.

(** [create_byte_buffer(init_or_size)]. *)
Definition create_byte_buffer (init_or_size : pyval) : result cdata :=
  match as_int init_or_size with
  | Some z =>
      if z <? 0 then Raise ValueError
      else construct (Array c_uint8 (Z.to_nat z)) [] []
  | None =>
      let* n := py_len init_or_size in
      let* items := py_list order init_or_size in
      construct (Array c_uint8 n) items []
  end.

End Functions.

(** [AtcaStructure.update_from_buffer(self, buffer)]: the outcome and the
    instance afterwards. *)
Definition update_from_buffer (self : cdata) (buffer : list Z)
  : result unit * cdata :=
  if (length buffer <? sizeof self)%nat then (Raise ValueError, self)
  else
    (Ok tt,
     CData (ob_type self) (memmove (b_ptr self) buffer (sizeof self))).

(** [ctypes_to_bytes(obj)]. *)
Definition ctypes_to_bytes (obj : cdata) : list Z :=
  let buf := create_string_buffer (sizeof obj) in
  let buf := CData (ob_type buf) (memmove (b_ptr buf) (b_ptr obj) (sizeof obj)) in
  raw buf.

(** Two sample classes and a mapping, in the style of the structures the
    package declares: a nested structure and an array of [c_char]. *)
Definition sample_inner : Ctypes.ctype :=
  Ctypes.Class Ctypes.AtcaStructure "Inner" 2
    [("a", Ctypes.c_uint8, 0%nat); ("b", Ctypes.c_uint8, 1%nat)].

Definition sample_outer : Ctypes.ctype :=
  Ctypes.Class Ctypes.AtcaStructure "Outer" 8
    [("id", Ctypes.c_uint16, 0%nat);
     ("inner", sample_inner, 2%nat);
     ("tag", Ctypes.Array Ctypes.c_char 4, 4%nat)].

Definition sample_word : Ctypes.ctype :=
  Ctypes.Class Ctypes.AtcaStructure "Word" 4
    [("lo", Ctypes.c_uint16, 0%nat); ("hi", Ctypes.c_uint16, 2%nat)].

Definition sample_mapping : Ctypes.kwargs :=
  [("id", Ctypes.PInt 0x1234);
   ("inner", Ctypes.PDict [("a", Ctypes.PInt 1); ("b", Ctypes.PInt 2)]);
   ("tag", Ctypes.PStr "ab")].

End Marshal.

(** ** AtcaReference *)

Module Reference.

(** The six rich comparisons. *)
Inductive cmpop : Set := Eq_ | Ne | Lt | Le | Gt | Ge.

(** The comparison tried on the right operand when the left one does not
    know the right one's type. *)
Definition swapped (op : cmpop) : cmpop :=
  match op with
  | Eq_ => Eq_
  | Ne => Ne
  | Lt => Gt
  | Le => Ge
  | Gt => Lt
  | Ge => Le
  end.

Section Boxed.

(** The plain values, with what the interpreter gives for a comparison of
    two of them and for [int(v)] and [str(v)]; each may raise. *)
Variable plain : Type.
Variable compare : cmpop -> plain -> plain -> result bool.
Variable plain_int : plain -> result Z.
Variable plain_str : plain -> result string.

(** A value is plain or boxed; [AtcaReference(value)] builds the box, whose
    [__init__] stores the value. *)
Inductive object : Type :=
| Plain (p : plain)
| Boxed (r : reference)
with reference : Type :=
| AtcaReference (value : object).

(** [self.value]. *)
Definition value (self : reference) : object :=
  match self with
  | AtcaReference v => v
  end.

Fixpoint unbox (o : object) : plain :=
  match o with
  | Plain p => p
  | Boxed (AtcaReference v) => unbox v
  end.

(** The expression [a op b]. The method of a boxed left operand is one of
    the six below: it compares the value of the box with [b]. The method
    of a plain left operand returns [NotImplemented] for a boxed right
    operand, and the swapped method of that box is tried. *)
Fixpoint richcmp (op : cmpop) (a b : object) {struct a} : result bool :=
  match a with
  | Boxed (AtcaReference v) => richcmp op v b
  | Plain p =>
      match b with
      | Plain q => compare op p q
      | Boxed _ => compare (swapped op) (unbox b) p
      end
  end.

Definition __eq__ (self : reference) (other : object) : result bool :=
  richcmp Eq_ (value self) other.

Definition __ne__ (self : reference) (other : object) : result bool :=
  richcmp Ne (value self) other.

Definition __lt__ (self : reference) (other : object) : result bool :=
  richcmp Lt (value self) other.

Definition __le__ (self : reference) (other : object) : result bool :=
  richcmp Le (value self) other.

Definition __gt__ (self : reference) (other : object) : result bool :=
  richcmp Gt (value self) other.

Definition __ge__ (self : reference) (other : object) : result bool :=
  richcmp Ge (value self) other.

(** The method the interpreter calls for [op] on a boxed left operand. *)
Definition method (op : cmpop) : reference -> object -> result bool :=
  match op with
  | Eq_ => __eq__
  | Ne => __ne__
  | Lt => __lt__
  | Le => __le__
  | Gt => __gt__
  | Ge => __ge__
  end.

(** The builtin [int(o)]; on a box it calls [__int__]. *)
Fixpoint int (o : object) : result Z :=
  match o with
  | Plain p => plain_int p
  | Boxed (AtcaReference v) => int v
  end.

Definition __int__ (self : reference) : result Z := int (value self).

(** The builtin [str(o)]; on a box it calls [__str__]. *)
Fixpoint str (o : object) : result string :=
  match o with
  | Plain p => plain_str p
  | Boxed (AtcaReference v) => str v
  end.

Definition __str__ (self : reference) : result string := str (value self).

End Boxed.

Arguments Plain {plain} p.
Arguments Boxed {plain} r.
Arguments AtcaReference {plain} value.

(** Integers as plain values, with their native comparisons. *)
Definition int_compare (op : cmpop) (x y : Z) : result bool :=
  Ok match op with
     | Eq_ => x =? y
     | Ne => negb (x =? y)
     | Lt => x <? y
     | Le => x <=? y
     | Gt => x >? y
     | Ge => x >=? y
     end.

End Reference.

(** ** Notions of the statements *)

(** The code points of a text. *)
Fixpoint code_points (s : string) : list Z :=
  match s with
  | EmptyString => []
  | String c s' => Z.of_N (N_of_ascii c) :: code_points s'
  end.

(** The byte at the lowest address of the 4-byte representation of an
    integer. *)
Definition leading_byte (order : Ctypes.byteorder) (z : Z) : Z :=
  match order with
  | Ctypes.LittleEndian => z mod 256
  | Ctypes.BigEndian => (z / 2 ^ 24) mod 256
  end.

(** The names of the fields of a class, in the order of [_fields_]. *)
Definition field_names (fields : list (string * Ctypes.ctype * nat))
  : list string :=
  (fun f => fst (fst f)) <$> fields.

(** The names of the keywords of a call, in order. *)
Definition keyword_names (kw : Ctypes.kwargs) : list string := fst <$> kw.

(** * Properties *)

(** ** Device metadata *)

Section DeviceFacts.

Import Device.

Lemma upper_char_idempotent (c : ascii) :
  upper_char (upper_char c) = upper_char c.
Proof.
  destruct c as [[] [] [] [] [] [] [] []]; vm_compute; reflexivity.
Qed.

Lemma upper_idempotent (s : string) : upper (upper s) = upper s.
Proof.
  induction s as [| c s IH]; simpl.
  - reflexivity.
  - rewrite upper_char_idempotent, IH. reflexivity.
Qed.

Lemma name_table_absent (b : Z) :
  b ∉ name_keys -> name_table !! b = None.
Proof.
  unfold name_keys, name_table. intros Hb.
  repeat (rewrite lookup_insert_ne; [| intros <-; apply Hb; set_solver]).
  apply lookup_singleton_ne. intros <-. apply Hb. set_solver.
Qed.

Lemma type_id_table_absent (k : string) :
  k ∉ type_id_keys -> type_id_table !! k = None.
Proof.
  unfold type_id_keys, type_id_table. intros Hk.
  repeat (rewrite lookup_insert_ne; [| intros <-; apply Hk; set_solver]).
  apply lookup_singleton_ne. intros <-. apply Hk. set_solver.
Qed.

(** A name whose upper-cased form is no key of the table has no type
    code: the lookup gives [None], not the code of ["UNKNOWN"]. *)
Lemma get_device_type_id_absent (name : string) :
  upper name ∉ type_id_keys -> get_device_type_id name = None.
Proof. intros H. unfold get_device_type_id. apply type_id_table_absent, H. Qed.

(** The key lists are the keys of the tables. *)
Lemma name_keys_dom : dom name_table = list_to_set name_keys.
Proof. vm_compute. reflexivity. Qed.

Lemma type_id_keys_dom : dom type_id_table = list_to_set type_id_keys.
Proof. vm_compute. reflexivity. Qed.

Lemma get_device_name_third (revision : list Z) (b : Z) :
  revision !! 2%nat = Some b ->
  get_device_name revision = Ok (default "UNKNOWN" (name_table !! b)).
Proof.
  intros H. unfold get_device_name, subscript. rewrite H. reflexivity.
Qed.

Lemma third_byte_exists (revision : list Z) :
  (3 <= length revision)%nat -> exists b, revision !! 2%nat = Some b.
Proof.
  intros H. destruct (revision !! 2%nat) as [b |] eqn:E.
  - exists b. reflexivity.
  - apply lookup_ge_None in E. lia.
Qed.

End DeviceFacts.

(** C6. On a revision of at least three items whose third item is [b],
    [get_device_name] returns the name the table gives for
    [b] in 0x10, 0x50, 0x60, 0x20, 0x00, 0x02, 0x40, and the literal
    ["UNKNOWN"] for every other [b]. *)
Theorem get_device_name_by_third_byte (revision : list Z) :
  (3 <= length revision)%nat ->
  exists b : Z,
    revision !! 2%nat = Some b /\
    (b = 0x10 -> Device.get_device_name revision = Ok "ATECC108A") /\
    (b = 0x50 -> Device.get_device_name revision = Ok "ATECC508A") /\
    (b = 0x60 -> Device.get_device_name revision = Ok "ATECC608") /\
    (b = 0x20 -> Device.get_device_name revision = Ok "ECC204") /\
    (b = 0x00 -> Device.get_device_name revision = Ok "ATSHA204A") /\
    (b = 0x02 -> Device.get_device_name revision = Ok "ATSHA204A") /\
    (b = 0x40 -> Device.get_device_name revision = Ok "ATSHA206A") /\
    (b ∉ Device.name_keys ->
     Device.get_device_name revision = Ok "UNKNOWN").
Proof.
  intros Hlen. destruct (third_byte_exists revision Hlen) as [b Hb].
  exists b. split; [exact Hb |].
  rewrite (get_device_name_third revision b Hb).
  repeat split; intros H; try (subst b; vm_compute; reflexivity).
  rewrite (name_table_absent b H). reflexivity.
Qed.

Lemma get_device_name_by_third_byte_witness :
  exists b : Z,
    [0x01; 0x23; 0x60; 0x02] !! 2%nat = Some b /\
    (b = 0x60 ->
     Device.get_device_name [0x01; 0x23; 0x60; 0x02] = Ok "ATECC608").
Proof.
  destruct (get_device_name_by_third_byte [0x01; 0x23; 0x60; 0x02])
    as [b (Hb & _ & _ & H60 & _)].
  - simpl. lia.
  - exists b. split; [exact Hb | exact H60].
Defined.

(** C1, at the failing input. ["UNKNOWN"] is a key and yields 0x20, but a
    name that is no key, such as ["NOT_A_DEVICE"], yields [None] and not
    the sentinel 0x20. *)
Theorem get_device_type_id_not_a_device :
  Device.get_device_type_id "UNKNOWN" = Some 0x20 /\
  Device.get_device_type_id "NOT_A_DEVICE" = None /\
  Device.get_device_type_id "NOT_A_DEVICE" <> Some 0x20.
Proof.
  split; [vm_compute; reflexivity |].
  split; [vm_compute; reflexivity |].
  vm_compute. discriminate.
Qed.

(** C2. For a revision whose third item is a key of the name table other
    than 0x40 the two lookups in sequence give an integer type code; for
    0x40 the name is ["ATSHA206A"], which is no key of the type table
    (its key is spelled ["ATSAH206A"]), and the result is [None]. *)
Theorem device_type_of_revision_not_closed (revision : list Z) (b : Z) :
  revision !! 2%nat = Some b ->
  (b ∈ [0x10; 0x50; 0x60; 0x20; 0x00; 0x02] ->
   exists z : Z, Device.device_type_of_revision revision = Ok (Some z)) /\
  (b = 0x40 ->
   Device.get_device_name revision = Ok "ATSHA206A" /\
   Device.type_id_table !! "ATSHA206A" = None /\
   Device.type_id_table !! "ATSAH206A" = Some 4 /\
   Device.device_type_of_revision revision = Ok None).
Proof.
  intros Hb. unfold Device.device_type_of_revision.
  rewrite (get_device_name_third revision b Hb). split.
  - intros Hin.
    repeat (apply elem_of_cons in Hin as [-> | Hin];
            [eexists; vm_compute; reflexivity |]).
    apply elem_of_nil in Hin. destruct Hin.
  - intros ->. repeat split; vm_compute; reflexivity.
Qed.

Lemma device_type_of_revision_not_closed_witness :
  (exists z : Z, Device.device_type_of_revision [0; 0; 0x60; 2] = Ok (Some z)) /\
  Device.device_type_of_revision [0; 0; 0x40; 0] = Ok None.
Proof.
  split.
  - apply (device_type_of_revision_not_closed [0; 0; 0x60; 2] 0x60).
    + reflexivity.
    + set_solver.
  - apply (device_type_of_revision_not_closed [0; 0; 0x40; 0] 0x40).
    + reflexivity.
    + reflexivity.
Defined.

(** C8. [get_device_type_id] does not see the case of its argument: a
    name and its upper-cased form get the same result, and ["ecc204"] and
    ["ECC204"] both get 5. *)
Theorem get_device_type_id_case_insensitive :
  (forall name : string,
     Device.get_device_type_id name = Device.get_device_type_id (upper name))
  /\ Device.get_device_type_id "ecc204" = Some 5
  /\ Device.get_device_type_id "ECC204" = Some 5.
Proof.
  split.
  - intros name. unfold Device.get_device_type_id.
    rewrite upper_idempotent. reflexivity.
  - split; vm_compute; reflexivity.
Qed.

(** ** Size introspection *)

(** C7. When the loaded library has no symbol [<name>_size],
    [get_size_by_name] returns 4; [get_ctype_by_name] returns [c_uint8],
    [c_uint16], [c_uint32] for the sizes 1, 2, 4 and [None] for every
    other size. Both are total: neither raises. *)
Theorem size_introspection (lib : Handle.handle) (name : string) :
  ((forall l, lib = Some l ->
      Handle.symbols l !! (name ++ "_size")%string = None) ->
   Handle.get_size_by_name lib name = 4) /\
  (Handle.get_size_by_name lib name = 1 ->
   Handle.get_ctype_by_name lib name = Some Ctypes.c_uint8) /\
  (Handle.get_size_by_name lib name = 2 ->
   Handle.get_ctype_by_name lib name = Some Ctypes.c_uint16) /\
  (Handle.get_size_by_name lib name = 4 ->
   Handle.get_ctype_by_name lib name = Some Ctypes.c_uint32) /\
  (Handle.get_size_by_name lib name ∉ [1; 2; 4] ->
   Handle.get_ctype_by_name lib name = None).
Proof.
  unfold Handle.get_ctype_by_name.
  split; [| split; [| split; [| split]]].
  - intros H. unfold Handle.get_size_by_name, Handle.getattr.
    destruct lib as [l |]; [| reflexivity].
    rewrite (H l eq_refl). reflexivity.
  - intros ->. reflexivity.
  - intros ->. reflexivity.
  - intros ->. reflexivity.
  - intros H. unfold Handle._CTYPES_BY_SIZE.
    repeat (rewrite lookup_insert_ne; [| intros Heq; apply H; rewrite <- Heq; set_solver]).
    apply lookup_singleton_ne. intros Heq. apply H. rewrite <- Heq. set_solver.
Qed.

Lemma size_introspection_witness :
  Handle.get_size_by_name (Some Handle.sample_lib) "atca_none" = 4 /\
  Handle.get_ctype_by_name (Some Handle.sample_lib) "atca_pair"
    = Some Ctypes.c_uint16 /\
  Handle.get_ctype_by_name (Some Handle.sample_lib) "atca_blob" = None.
Proof.
  split; [| split].
  - apply (size_introspection (Some Handle.sample_lib) "atca_none").
    intros l [= <-]. vm_compute. reflexivity.
  - apply (size_introspection (Some Handle.sample_lib) "atca_pair").
    vm_compute. reflexivity.
  - apply (size_introspection (Some Handle.sample_lib) "atca_blob").
    vm_compute. intros H.
    repeat (apply elem_of_cons in H as [H | H]; [discriminate H |]).
    apply elem_of_nil in H. exact H.
Defined.

(** ** Memory *)

Section MemoryFacts.

Import Ctypes.

Lemma length_write_at (buf : list Z) (off : nat) (data : list Z) :
  length (write_at buf off data) = length buf.
Proof.
  unfold write_at.
  rewrite length_take, !length_app, length_take, length_drop. lia.
Qed.

Lemma length_memmove (dst src : list Z) (n : nat) :
  length (memmove dst src n) = length dst.
Proof. apply length_write_at. Qed.

(** A move of exactly the destination's size, from a source that has
    that many bytes, leaves the first [n] bytes of the source. *)
Lemma memmove_whole (dst src : list Z) (n : nat) :
  n = length dst -> (n <= length src)%nat ->
  memmove dst src n = take n src.
Proof.
  intros -> Hle. unfold memmove, write_at. simpl.
  rewrite length_take, Nat.min_l by exact Hle.
  rewrite drop_all, app_nil_r.
  apply take_ge. rewrite length_take. lia.
Qed.

Lemma sizeof_new (T : ctype) : sizeof (new T) = sizeof_type T.
Proof. unfold sizeof, new. simpl. apply length_replicate. Qed.

End MemoryFacts.

(** ** Structures and buffers *)

Section StructureFacts.

Import Ctypes Marshal.

Lemma ctypes_to_bytes_is_buffer (obj : cdata) :
  ctypes_to_bytes obj = b_ptr obj.
Proof.
  unfold ctypes_to_bytes, raw, create_string_buffer. simpl.
  rewrite memmove_whole.
  - apply take_ge. unfold sizeof. lia.
  - rewrite length_replicate. simpl. lia.
  - unfold sizeof. lia.
Qed.


Lemma update_from_buffer_enough (s : cdata) (buffer : list Z) :
  (sizeof s <= length buffer)%nat ->
  update_from_buffer s buffer =
    (Ok tt, CData (ob_type s) (take (sizeof s) buffer)).
Proof.
  intros H. unfold update_from_buffer.
  destruct (Nat.ltb_spec (length buffer) (sizeof s)); [lia |].
  rewrite memmove_whole by (unfold sizeof in *; lia). reflexivity.
Qed.

End StructureFacts.



(** ** The class call *)

Section ConstructFacts.

Import Ctypes Marshal.

Variable order : byteorder.

Lemma same_shape_refl (o : cdata) : same_shape o o.
Proof. split; reflexivity. Qed.

Lemma same_shape_trans (o1 o2 o3 : cdata) :
  same_shape o1 o2 -> same_shape o2 o3 -> same_shape o1 o3.
Proof. intros [H1 H2] [H3 H4]. split; congruence. Qed.

Lemma setattr_shape (self self' : cdata) (name : string) (v : pyval) :
  setattr order self name v = Ok self' -> same_shape self self'.
Proof.
  unfold setattr.
  destruct (find_field name (fields_of (ob_type self))) as [[ft off] |].
  - destruct (field_set order ft v) as [e | data]; simpl; [discriminate |].
    intros [= <-]. split; [reflexivity |].
    unfold sizeof. simpl. apply length_write_at.
  - intros [= <-]. apply same_shape_refl.
Qed.

Lemma init_kwds_shape (kwds : kwargs) (self self' : cdata) :
  init_kwds order self kwds = Ok self' -> same_shape self self'.
Proof.
  revert self. induction kwds as [| [k v] kwds IH]; intros self; simpl.
  - intros [= <-]. apply same_shape_refl.
  - destruct (setattr order self k v) as [e | s1] eqn:E; simpl;
      [discriminate |].
    intros H. eapply same_shape_trans.
    + eapply setattr_shape, E.
    + apply IH, H.
Qed.

Lemma init_pos_args_shape (args : list pyval) (kwds : kwargs)
  (fields : list (string * ctype * nat)) (self self' : cdata) :
  init_pos_args order self fields args kwds = Ok self' ->
  same_shape self self'.
Proof.
  revert self fields. induction args as [| a args IH]; intros self fields;
    simpl.
  - intros [= <-]. apply same_shape_refl.
  - destruct fields as [| [[name ft] off] fields]; [discriminate |].
    destruct (kw_get name kwds); [discriminate |].
    destruct (setattr order self name a) as [e | s1] eqn:E; simpl;
      [discriminate |].
    intros H. eapply same_shape_trans.
    + eapply setattr_shape, E.
    + eapply IH, H.
Qed.

Lemma Struct_init_shape (self self' : cdata) (args : list pyval)
  (kwds : kwargs) :
  Struct_init order self args kwds = Ok self' -> same_shape self self'.
Proof.
  unfold Struct_init.
  destruct (init_pos_args order self (fields_of (ob_type self)) args kwds)
    as [e | s1] eqn:E; simpl; [discriminate |].
  intros H. eapply same_shape_trans.
  - eapply init_pos_args_shape, E.
  - eapply init_kwds_shape, H.
Qed.

Lemma set_items_length (t : ctype) (n : nat) (args : list pyval)
  (i : nat) (buf buf' : list Z) :
  set_items order t n i buf args = Ok buf' -> length buf' = length buf.
Proof.
  revert i buf. induction args as [| a args IH]; intros i buf; simpl.
  - intros [= <-]. reflexivity.
  - destruct (n <=? i)%nat; [discriminate |].
    destruct (item_set order t a) as [e | data]; simpl; [discriminate |].
    intros H. apply IH in H. rewrite H. apply length_write_at.
Qed.

Lemma Array_init_shape (self self' : cdata) (t : ctype) (n : nat)
  (args : list pyval) :
  Array_init order self t n args = Ok self' -> same_shape self self'.
Proof.
  unfold Array_init.
  destruct (set_items order t n 0 (b_ptr self) args) as [e | buf] eqn:E;
    simpl; [discriminate |].
  intros [= <-]. split; [reflexivity |].
  unfold sizeof. simpl. eapply set_items_length, E.
Qed.

Lemma Simple_init_shape (self self' : cdata) (k : simple)
  (args : list pyval) :
  Simple_init order self k args = Ok self' -> same_shape self self'.
Proof.
  unfold Simple_init. destruct args as [| v [| w args]].
  - intros [= <-]. apply same_shape_refl.
  - destruct (simple_set order k v) as [e | data]; simpl; [discriminate |].
    intros [= <-]. split; [reflexivity |].
    unfold sizeof. simpl. apply length_write_at.
  - discriminate.
Qed.

(** An instance that a class call returns is of that class and owns
    exactly [sizeof] of the class bytes. *)
Lemma construct_shape (T : ctype) (args : list pyval) (kw : kwargs)
  (o : cdata) :
  construct order T args kw = Ok o ->
  ob_type o = T /\ sizeof o = sizeof_type T.
Proof.
  intros H.
  assert (same_shape (new T) o) as [Ht Hs].
  { destruct T as [k | t n | b name size fields]; simpl in H.
    - eapply Simple_init_shape, H.
    - eapply Array_init_shape, H.
    - destruct (if is_atca b then marshal_fields order (construct order)
                                                 fields kw
                else Ok kw) as [e | kw']; simpl in H; [discriminate |].
      eapply Struct_init_shape, H. }
  split; [exact Ht |]. rewrite Hs. apply sizeof_new.
Qed.

Lemma marshal_fields_no_keywords
  (call : ctype -> list pyval -> kwargs -> result cdata)
  (fields : list (string * ctype * nat)) :
  marshal_fields order call fields [] = Ok [].
Proof.
  induction fields as [| [[name ft] off] fields IH]; simpl.
  - reflexivity.
  - exact IH.
Qed.

(** The call of a class on nothing gives the fresh zeroed instance. *)
Lemma construct_fresh (T : ctype) : construct order T [] [] = Ok (new T).
Proof.
  destruct T as [k | t n | b name size fields]; simpl; try reflexivity.
  destruct (is_atca b); [rewrite marshal_fields_no_keywords |]; reflexivity.
Qed.

(** The class call of a subclass of [AtcaStructure] is its [__init__] on
    a fresh instance. *)
Lemma construct_AtcaStructure (name : string) (size : nat)
  (fields : list (string * ctype * nat)) (args : list pyval) (kw : kwargs) :
  construct order (Class AtcaStructure name size fields) args kw =
  AtcaStructure_init order (new (Class AtcaStructure name size fields))
    args kw.
Proof. reflexivity. Qed.

Lemma construct_AtcaUnion (name : string) (size : nat)
  (fields : list (string * ctype * nat)) (args : list pyval) (kw : kwargs) :
  construct order (Class AtcaUnion name size fields) args kw =
  AtcaUnion_init order (new (Class AtcaUnion name size fields)) args kw.
Proof. reflexivity. Qed.

End ConstructFacts.

(** C4. Round trip. Let [T] be a subclass of [AtcaStructure] and [m] a
    mapping its constructor accepts, giving [s]. The bytes of [s] put
    into a fresh instance of [T] by [update_from_buffer] are accepted,
    and the instance is then equal to [s], byte for byte. *)
Theorem marshal_bytes_update_roundtrip (order : Ctypes.byteorder)
  (name : string) (size : nat)
  (fields : list (string * Ctypes.ctype * nat))
  (m : Ctypes.kwargs) (s : Ctypes.cdata) :
  let T := Ctypes.Class Ctypes.AtcaStructure name size fields in
  Marshal.get_ctype_structure_instance order T (Ctypes.PDict m)
    = Ok (Ctypes.PCData s) ->
  exists s2 : Ctypes.cdata,
    Marshal.construct order T [] [] = Ok s2 /\
    fst (Marshal.update_from_buffer s2 (Marshal.ctypes_to_bytes s)) = Ok tt /\
    Ctypes.b_ptr
      (snd (Marshal.update_from_buffer s2 (Marshal.ctypes_to_bytes s)))
      = Ctypes.b_ptr s /\
    snd (Marshal.update_from_buffer s2 (Marshal.ctypes_to_bytes s)) = s.
Proof.
  intros T H.
  unfold Marshal.get_ctype_structure_instance,
    Marshal.get_ctype_structure_instance_ in H.
  destruct (Marshal.construct order T [] m) as [e | r] eqn:E; simpl in H;
    [discriminate |].
  injection H as ->.
  destruct (construct_shape order T [] m s E) as [Ht Hs].
  exists (Ctypes.new T). split; [apply construct_fresh |].
  rewrite ctypes_to_bytes_is_buffer.
  rewrite update_from_buffer_enough
    by (rewrite sizeof_new, <- Hs; unfold Ctypes.sizeof; lia).
  simpl. rewrite sizeof_new, <- Hs.
  assert (take (Ctypes.sizeof s) (Ctypes.b_ptr s) = Ctypes.b_ptr s) as ->
    by (apply take_ge; unfold Ctypes.sizeof; lia).
  repeat split. destruct s as [ty buf]. simpl in *. subst ty. reflexivity.
Qed.


Example sample_outer_marshalled :
  Marshal.get_ctype_structure_instance Ctypes.LittleEndian
    Marshal.sample_outer (Ctypes.PDict Marshal.sample_mapping)
  = Ok (Ctypes.PCData
          (Ctypes.CData Marshal.sample_outer
             [0x34; 0x12; 1; 2; 97; 98; 0; 0])).
Proof. vm_compute. reflexivity. Qed.

Lemma marshal_bytes_update_roundtrip_witness :
  exists s2 : Ctypes.cdata,
    Marshal.construct Ctypes.LittleEndian Marshal.sample_outer [] []
      = Ok s2 /\
    snd (Marshal.update_from_buffer s2
           (Marshal.ctypes_to_bytes
              (Ctypes.CData Marshal.sample_outer
                 [0x34; 0x12; 1; 2; 97; 98; 0; 0])))
    = Ctypes.CData Marshal.sample_outer [0x34; 0x12; 1; 2; 97; 98; 0; 0].
Proof.
  destruct (marshal_bytes_update_roundtrip Ctypes.LittleEndian
              "Outer" 8
              [("id", Ctypes.c_uint16, 0%nat);
               ("inner", Marshal.sample_inner, 2%nat);
               ("tag", Ctypes.Array Ctypes.c_char 4, 4%nat)]
              Marshal.sample_mapping
              (Ctypes.CData Marshal.sample_outer
                 [0x34; 0x12; 1; 2; 97; 98; 0; 0]))
    as (s2 & H1 & _ & _ & H2).
  - vm_compute. reflexivity.
  - exists s2. split; [exact H1 | exact H2].
Defined.

(** ** Bytes of integers *)

Section EncodingFacts.

Import Ctypes.

Lemma length_le_bytes (n : nat) (z : Z) : length (le_bytes n z) = n.
Proof.
  revert z. induction n as [| n IH]; intros z; simpl.
  - reflexivity.
  - rewrite IH. reflexivity.
Qed.

Lemma length_encode (order : byteorder) (n : nat) (z : Z) :
  length (encode order n z) = n.
Proof.
  destruct order; simpl.
  - apply length_le_bytes.
  - rewrite length_rev. apply length_le_bytes.
Qed.

Lemma le_value_le_bytes (n : nat) (z : Z) :
  le_value (le_bytes n z) = z mod 256 ^ Z.of_nat n.
Proof.
  revert z. induction n as [| n IH]; intros z.
  - simpl. rewrite Z.mod_1_r. reflexivity.
  - cbn [le_bytes le_value]. rewrite IH.
    rewrite Nat2Z.inj_succ, Z.pow_succ_r by lia.
    rewrite Z.rem_mul_r by lia. reflexivity.
Qed.

(** [encode] is the unsigned representation: read back, it is the value
    wrapped to the width. *)
Lemma decode_encode (order : byteorder) (n : nat) (z : Z) :
  decode order (encode order n z) = z mod 256 ^ Z.of_nat n.
Proof.
  destruct order; simpl.
  - apply le_value_le_bytes.
  - rewrite rev_involutive. apply le_value_le_bytes.
Qed.

Lemma encode_one_byte (order : byteorder) (z : Z) :
  encode order 1 z = [z mod 256].
Proof. destruct order; reflexivity. Qed.

Lemma is_byte_mod (z : Z) : is_byte z = true -> z mod 256 = z.
Proof.
  unfold is_byte. intros H. apply andb_true_iff in H as [H1 H2].
  apply Z.mod_small. lia.
Qed.

Lemma sizeof_c_uint_new (order : byteorder) (z : Z) :
  sizeof (c_uint_new order z) = 4%nat.
Proof. unfold sizeof, c_uint_new. simpl. apply length_encode. Qed.

Lemma from_buffer_copy_c_uint (order : byteorder) (T : ctype) (z : Z) :
  (sizeof_type T <= 4)%nat ->
  from_buffer_copy T (c_uint_new order z) =
    Ok (CData T (take (sizeof_type T) (encode order 4 z))).
Proof.
  intros H. unfold from_buffer_copy. rewrite sizeof_c_uint_new.
  destruct (Nat.ltb_spec 4 (sizeof_type T)); [lia | reflexivity].
Qed.

Lemma from_buffer_copy_c_uint_small (order : byteorder) (T : ctype) (z : Z) :
  (4 < sizeof_type T)%nat ->
  from_buffer_copy T (c_uint_new order z) = Raise ValueError.
Proof.
  intros H. unfold from_buffer_copy. rewrite sizeof_c_uint_new.
  destruct (Nat.ltb_spec 4 (sizeof_type T)); [reflexivity | lia].
Qed.

End EncodingFacts.

(** C5. [get_ctype_structure_instance] goes by the kind of [value]: a
    mapping is the keywords of the class call; an integer gives an
    instance whose bytes are the leading [sizeof(structure)] bytes of the
    4-byte unsigned representation of the integer, when the structure has
    at most 4 bytes (the fields play no part; a larger structure is
    refused with [ValueError]); an enumerated value does
    the same with its integer value; an instance of the structure is
    returned as it is; any other value is the one positional argument of
    the class call. *)
Theorem get_ctype_structure_instance_dispatch
  (order : Ctypes.byteorder) (structure : Ctypes.ctype) :
  (forall d : Ctypes.kwargs,
     Marshal.get_ctype_structure_instance order structure (Ctypes.PDict d)
     = let* r := Marshal.construct order structure [] d in
       Ok (Ctypes.PCData r)) /\
  (forall z : Z,
     Ctypes.decode order (Ctypes.encode order 4 z) = z mod 2 ^ 32 /\
     ((Ctypes.sizeof_type structure <= 4)%nat ->
      Marshal.get_ctype_structure_instance order structure (Ctypes.PInt z)
      = Ok (Ctypes.PCData
              (Ctypes.CData structure
                 (take (Ctypes.sizeof_type structure)
                       (Ctypes.encode order 4 z))))) /\
     (Ctypes.sizeof_type structure = 4%nat ->
      Marshal.get_ctype_structure_instance order structure (Ctypes.PInt z)
      = Ok (Ctypes.PCData
              (Ctypes.CData structure (Ctypes.encode order 4 z)))) /\
     ((4 < Ctypes.sizeof_type structure)%nat ->
      Marshal.get_ctype_structure_instance order structure (Ctypes.PInt z)
      = Raise ValueError)) /\
  (forall v : Z,
     (Ctypes.sizeof_type structure <= 4)%nat ->
     Marshal.get_ctype_structure_instance order structure (Ctypes.PEnum v)
     = Ok (Ctypes.PCData
             (Ctypes.CData structure
                (take (Ctypes.sizeof_type structure)
                      (Ctypes.encode order 4 (Marshal.int_of_enum v)))))) /\
  (forall o : Ctypes.cdata,
     Ctypes.isinstance (Ctypes.PCData o) structure = true ->
     Marshal.get_ctype_structure_instance order structure (Ctypes.PCData o)
     = Ok (Ctypes.PCData o)) /\
  (forall value : Ctypes.pyval,
     Marshal.is_mapping value = false ->
     Ctypes.as_int value = None ->
     Marshal.is_enum value = false ->
     Ctypes.isinstance value structure = false ->
     Marshal.get_ctype_structure_instance order structure value
     = let* r := Marshal.construct order structure [value] [] in
       Ok (Ctypes.PCData r)).
Proof.
  unfold Marshal.get_ctype_structure_instance,
    Marshal.get_ctype_structure_instance_.
  split; [| split; [| split; [| split]]].
  - reflexivity.
  - intros z. split; [apply (decode_encode order 4 z) |].
    cbn [Ctypes.as_int]. split; [| split].
    + intros H. rewrite from_buffer_copy_c_uint by exact H. reflexivity.
    + intros H. rewrite from_buffer_copy_c_uint by lia. simpl.
      rewrite take_ge by (rewrite length_encode; lia). reflexivity.
    + intros H. rewrite from_buffer_copy_c_uint_small by exact H.
      reflexivity.
  - intros v H. cbn [Ctypes.as_int].
    rewrite from_buffer_copy_c_uint by exact H. reflexivity.
  - intros o H. cbn [Ctypes.as_int]. rewrite H. reflexivity.
  - intros value Hd Hi He Hs.
    destruct value; simpl in *; try discriminate; try reflexivity.
    rewrite Hs. reflexivity.
Qed.

Lemma get_ctype_structure_instance_dispatch_witness :
  Marshal.get_ctype_structure_instance Ctypes.LittleEndian
    Marshal.sample_word (Ctypes.PInt 0x11223344)
  = Ok (Ctypes.PCData
          (Ctypes.CData Marshal.sample_word [0x44; 0x33; 0x22; 0x11])) /\
  Marshal.get_ctype_structure_instance Ctypes.LittleEndian
    Marshal.sample_word (Ctypes.PEnum 5)
  = Ok (Ctypes.PCData (Ctypes.CData Marshal.sample_word [5; 0; 0; 0])) /\
  Marshal.get_ctype_structure_instance Ctypes.LittleEndian
    Marshal.sample_word
    (Ctypes.PCData (Ctypes.CData Marshal.sample_word [1; 2; 3; 4]))
  = Ok (Ctypes.PCData (Ctypes.CData Marshal.sample_word [1; 2; 3; 4])) /\
  Marshal.get_ctype_structure_instance Ctypes.LittleEndian
    Marshal.sample_word (Ctypes.PStr "x")
  = Raise TypeError.
Proof.
  pose proof (get_ctype_structure_instance_dispatch Ctypes.LittleEndian
                Marshal.sample_word) as (_ & Hint & Henum & Hinst & Hother).
  split; [| split; [| split]].
  - destruct (Hint 0x11223344) as (_ & _ & H4 & _). apply H4. reflexivity.
  - apply (Henum 5). cbv. lia.
  - apply Hinst. reflexivity.
  - rewrite Hother by reflexivity. reflexivity.
Defined.

(** ** Byte buffers *)

Section BufferFacts.

Import Ctypes Marshal.

Variable order : byteorder.

Lemma write_at_byte (buf : list Z) (i : nat) (z : Z) :
  (i < length buf)%nat -> write_at buf i [z] = <[i:=z]> buf.
Proof.
  intros H. unfold write_at. rewrite take_ge.
  - rewrite insert_take_drop by exact H. simpl.
    rewrite Nat.add_1_r. reflexivity.
  - rewrite !length_app, length_take, length_drop. simpl. lia.
Qed.

(** Bytes stored one after the other into an array of [c_uint8], from
    index [i] on. *)
Lemma set_items_uint8 (bs : list Z) (n i : nat) (buf : list Z) :
  Forall (fun z => is_byte z = true) bs ->
  length buf = n -> (i + length bs <= n)%nat ->
  set_items order c_uint8 n i buf (PInt <$> bs) =
    Ok (take i buf ++ bs ++ drop (i + length bs) buf).
Proof.
  revert i buf. induction bs as [| z bs IH]; intros i buf Hb Hn Hi.
  - simpl. rewrite Nat.add_0_r, take_drop. reflexivity.
  - apply Forall_cons in Hb as [Hz Hb]. simpl in Hi.
    cbn [fmap list_fmap set_items].
    destruct (Nat.leb_spec n i); [lia |].
    cbn [item_set slot_set c_uint8 simple_set as_int rbind simple_size
         sizeof_type].
    rewrite encode_one_byte, (is_byte_mod z Hz).
    cbn [take]. rewrite Nat.mul_1_r, write_at_byte by lia.
    change (list_fmap Z pyval PInt bs) with (PInt <$> bs).
    rewrite IH; [| exact Hb | rewrite length_insert; exact Hn | lia].
    rewrite (take_S_r _ i z) by (apply list_lookup_insert_eq; lia).
    rewrite take_insert_ge by lia.
    rewrite drop_insert_lt by lia.
    rewrite <- app_assoc. simpl.
    replace (S (i + length bs))%nat with (i + S (length bs))%nat by lia.
    reflexivity.
Qed.

Lemma construct_uint8_array (bs : list Z) :
  Forall (fun z => is_byte z = true) bs ->
  construct order (Array c_uint8 (length bs)) (PInt <$> bs) [] =
    Ok (CData (Array c_uint8 (length bs)) bs).
Proof.
  intros Hb. cbn [construct]. unfold Array_init, new.
  cbn [b_ptr ob_type sizeof_type c_uint8 simple_size].
  rewrite (set_items_uint8 bs (length bs) 0);
    [| exact Hb | rewrite length_replicate; lia | lia].
  cbn [rbind take app]. rewrite drop_ge, app_nil_r.
  - reflexivity.
  - rewrite length_replicate. lia.
Qed.

End BufferFacts.

(** C9. For an integer [n >= 0], [create_byte_buffer(n)] is an array of
    [n] elements of [c_uint8], all zero. For a sequence of bytes [s], as
    [bytes] or as a list of integers, it is an array of [len(s)] elements
    that are the elements of [s] in order. So [create_byte_buffer(5)]
    holds five zeros and [create_byte_buffer([1, 2, 3])] holds 1, 2, 3. *)
Theorem create_byte_buffer_spec (order : Ctypes.byteorder) :
  (forall n : Z, 0 <= n ->
     Marshal.create_byte_buffer order (Ctypes.PInt n) =
       Ok (Ctypes.CData (Ctypes.Array Ctypes.c_uint8 (Z.to_nat n))
             (replicate (Z.to_nat n) 0))) /\
  (forall s : list Z, Forall (fun z => Ctypes.is_byte z = true) s ->
     Marshal.create_byte_buffer order (Ctypes.PBytes s) =
       Ok (Ctypes.CData (Ctypes.Array Ctypes.c_uint8 (length s)) s) /\
     Marshal.create_byte_buffer order (Ctypes.PList (Ctypes.PInt <$> s)) =
       Ok (Ctypes.CData (Ctypes.Array Ctypes.c_uint8 (length s)) s)) /\
  Marshal.create_byte_buffer order (Ctypes.PInt 5) =
    Ok (Ctypes.CData (Ctypes.Array Ctypes.c_uint8 5) [0; 0; 0; 0; 0]) /\
  Marshal.create_byte_buffer order
    (Ctypes.PList [Ctypes.PInt 1; Ctypes.PInt 2; Ctypes.PInt 3]) =
    Ok (Ctypes.CData (Ctypes.Array Ctypes.c_uint8 3) [1; 2; 3]).
Proof.
  assert (forall s : list Z, Forall (fun z => Ctypes.is_byte z = true) s ->
     Marshal.create_byte_buffer order (Ctypes.PBytes s) =
       Ok (Ctypes.CData (Ctypes.Array Ctypes.c_uint8 (length s)) s) /\
     Marshal.create_byte_buffer order (Ctypes.PList (Ctypes.PInt <$> s)) =
       Ok (Ctypes.CData (Ctypes.Array Ctypes.c_uint8 (length s)) s))
    as Hseq.
  { intros s Hs. unfold Marshal.create_byte_buffer.
    cbn [Ctypes.as_int Ctypes.py_len Ctypes.py_list rbind].
    rewrite length_fmap. split; apply construct_uint8_array, Hs. }
  split; [| split; [exact Hseq | split]].
  - intros n Hn. unfold Marshal.create_byte_buffer. cbn [Ctypes.as_int].
    destruct (Z.ltb_spec n 0); [lia |].
    rewrite construct_fresh. unfold Ctypes.new.
    cbn [Ctypes.sizeof_type Ctypes.c_uint8 Ctypes.simple_size].
    rewrite Nat.mul_1_r. reflexivity.
  - destruct order; reflexivity.
  - apply (Hseq [1; 2; 3]). repeat constructor.
Qed.

Lemma create_byte_buffer_spec_witness :
  Marshal.create_byte_buffer Ctypes.BigEndian (Ctypes.PInt 2) =
    Ok (Ctypes.CData (Ctypes.Array Ctypes.c_uint8 2) [0; 0]) /\
  Marshal.create_byte_buffer Ctypes.BigEndian (Ctypes.PBytes [9; 255]) =
    Ok (Ctypes.CData (Ctypes.Array Ctypes.c_uint8 2) [9; 255]).
Proof.
  pose proof (create_byte_buffer_spec Ctypes.BigEndian) as (Hn & Hs & _).
  split.
  - apply (Hn 2). lia.
  - apply (Hs [9; 255]). repeat constructor.
Defined.

(** ** Boxed values *)

Section ReferenceFacts.

Import Reference.

Variable plain : Type.
Variable compare : cmpop -> plain -> plain -> result bool.
Variable plain_int : plain -> result Z.

(** The interpreter's comparison with a box on the left is the method of
    the box. *)
Lemma richcmp_is_method (op : cmpop) (r : reference plain)
  (other : object plain) :
  richcmp plain compare op (Boxed r) other = method plain compare op r other.
Proof. destruct r, op; reflexivity. Qed.

Lemma richcmp_plain (op : cmpop) (v w : plain) :
  richcmp plain compare op (Plain v) (Plain w) = compare op v w.
Proof. reflexivity. Qed.

Lemma int_is_method (r : reference plain) :
  int plain plain_int (Boxed r) = __int__ plain plain_int r.
Proof. destruct r. reflexivity. Qed.

End ReferenceFacts.

(** C10. For every value [V] and every plain value [w], each of the six
    comparisons of [AtcaReference(V)] with [w] gives what the same
    comparison of [V] with [w] gives, the raised exception included, and
    [int(AtcaReference(V))] is [int(V)]. *)
Theorem AtcaReference_compares_as_its_value (plain : Type)
  (compare : Reference.cmpop -> plain -> plain -> result bool)
  (plain_int : plain -> result Z)
  (V : Reference.object plain) (w : plain) :
  let ref := Reference.AtcaReference V in
  (forall op : Reference.cmpop,
     Reference.richcmp plain compare op (Reference.Boxed ref)
       (Reference.Plain w)
     = Reference.richcmp plain compare op V (Reference.Plain w)) /\
  Reference.__eq__ plain compare ref (Reference.Plain w)
    = Reference.richcmp plain compare Reference.Eq_ V (Reference.Plain w) /\
  Reference.__ne__ plain compare ref (Reference.Plain w)
    = Reference.richcmp plain compare Reference.Ne V (Reference.Plain w) /\
  Reference.__lt__ plain compare ref (Reference.Plain w)
    = Reference.richcmp plain compare Reference.Lt V (Reference.Plain w) /\
  Reference.__le__ plain compare ref (Reference.Plain w)
    = Reference.richcmp plain compare Reference.Le V (Reference.Plain w) /\
  Reference.__gt__ plain compare ref (Reference.Plain w)
    = Reference.richcmp plain compare Reference.Gt V (Reference.Plain w) /\
  Reference.__ge__ plain compare ref (Reference.Plain w)
    = Reference.richcmp plain compare Reference.Ge V (Reference.Plain w) /\
  (forall (v : plain) (op : Reference.cmpop),
     V = Reference.Plain v ->
     Reference.richcmp plain compare op (Reference.Boxed ref)
       (Reference.Plain w)
     = compare op v w) /\
  Reference.int plain plain_int (Reference.Boxed ref)
    = Reference.int plain plain_int V.
Proof.
  intros ref. repeat split; try reflexivity.
  intros v op ->. reflexivity.
Qed.

Lemma AtcaReference_compares_as_its_value_witness :
  Reference.richcmp Z Reference.int_compare Reference.Lt
    (Reference.Boxed (Reference.AtcaReference (Reference.Plain 5)))
    (Reference.Plain 7)
  = Ok true /\
  Reference.richcmp Z Reference.int_compare Reference.Eq_
    (Reference.Boxed (Reference.AtcaReference (Reference.Plain 5)))
    (Reference.Plain 7)
  = Ok false.
Proof.
  pose proof (AtcaReference_compares_as_its_value Z Reference.int_compare
                (fun z => Ok z) (Reference.Plain 5) 7)
    as (_ & _ & _ & _ & _ & _ & _ & H & _).
  split.
  - apply (H 5 Reference.Lt). reflexivity.
  - apply (H 5 Reference.Eq_). reflexivity.
Defined.

(** * Further properties *)

(** ** Device metadata *)

(** X1. [get_device_name] raises exactly when the revision has fewer than
    three items, and then it is an [IndexError]; on every longer revision
    it returns a name. *)
Theorem get_device_name_index_error (revision : list Z) :
  (Device.get_device_name revision = Raise IndexError <->
   (length revision < 3)%nat) /\
  (forall e : exception,
     Device.get_device_name revision = Raise e -> e = IndexError) /\
  ((3 <= length revision)%nat ->
   exists name : string, Device.get_device_name revision = Ok name).
Proof.
  unfold Device.get_device_name, Device.subscript.
  destruct (revision !! 2%nat) as [b |] eqn:E; simpl.
  - apply lookup_lt_Some in E.
    split; [split; [discriminate | lia] |].
    split; [discriminate |]. intros _. eexists. reflexivity.
  - apply lookup_ge_None in E.
    split; [split; [intros _; lia | reflexivity] |].
    split; [intros e [= <-]; reflexivity | lia].
Qed.

Lemma get_device_name_index_error_witness :
  exists name : string, Device.get_device_name [0; 0; 0x50; 0] = Ok name.
Proof.
  apply (get_device_name_index_error [0; 0; 0x50; 0]). simpl. lia.
Defined.

(** X2. The two lookups in sequence give the code of ["UNKNOWN"], 0x20,
    exactly for the revisions whose third item is no key of the name
    table. *)
Theorem unknown_revision_gets_sentinel (revision : list Z) (b : Z) :
  revision !! 2%nat = Some b ->
  (Device.device_type_of_revision revision = Ok (Some 0x20) <->
   b ∉ Device.name_keys).
Proof.
  intros Hb. unfold Device.device_type_of_revision.
  rewrite (get_device_name_third revision b Hb). split.
  - intros H Hin. unfold Device.name_keys in Hin.
    repeat (apply elem_of_cons in Hin as [-> | Hin];
            [vm_compute in H; discriminate H |]).
    apply elem_of_nil in Hin. exact Hin.
  - intros Hn. rewrite (name_table_absent b Hn). vm_compute. reflexivity.
Qed.

Lemma unknown_revision_gets_sentinel_witness :
  Device.device_type_of_revision [0; 0; 0x77; 0] = Ok (Some 0x20).
Proof.
  apply (unknown_revision_gets_sentinel [0; 0; 0x77; 0] 0x77).
  - reflexivity.
  - unfold Device.name_keys. intros Hin.
    repeat (apply elem_of_cons in Hin as [Heq | Hin]; [discriminate Heq |]).
    apply elem_of_nil in Hin. exact Hin.
Defined.

(** X3. Whatever the name, an integer that [get_device_type_id] returns
    is one of the seven codes 0, 1, 2, 3, 4, 5, 0x20 of the table. *)
Theorem get_device_type_id_range (name : string) (z : Z) :
  Device.get_device_type_id name = Some z ->
  z ∈ [0; 1; 2; 3; 4; 5; 0x20].
Proof.
  unfold Device.get_device_type_id. intros H.
  destruct (decide (upper name ∈ Device.type_id_keys)) as [Hin | Hn].
  - unfold Device.type_id_keys in Hin.
    repeat (apply elem_of_cons in Hin as [Heq | Hin];
            [rewrite Heq in H; vm_compute in H; injection H as <-;
             set_solver |]).
    apply elem_of_nil in Hin. destruct Hin.
  - rewrite (type_id_table_absent _ Hn) in H. discriminate H.
Qed.

Lemma get_device_type_id_range_witness :
  3 ∈ [0; 1; 2; 3; 4; 5; 0x20].
Proof.
  apply (get_device_type_id_range "atecc608b" 3). vm_compute. reflexivity.
Defined.

(** ** The library handle *)



Lemma ctypes_by_size_Some (z : Z) (T : Ctypes.ctype) :
  Handle._CTYPES_BY_SIZE !! z = Some T ->
  (z = 1 /\ T = Ctypes.c_uint8) \/ (z = 2 /\ T = Ctypes.c_uint16) \/
  (z = 4 /\ T = Ctypes.c_uint32).
Proof.
  unfold Handle._CTYPES_BY_SIZE. intros H.
  apply lookup_insert_Some in H as [[<- <-] | [_ H]]; [auto |].
  apply lookup_insert_Some in H as [[<- <-] | [_ H]]; [auto |].
  apply lookup_singleton_Some in H as [<- <-]. auto.
Qed.

(** X5. A type that [get_ctype_by_name] returns has exactly the size that
    [get_size_by_name] reports for the name, and a type is returned
    exactly when that size is 1, 2 or 4. *)
Theorem get_ctype_by_name_has_the_size (lib : Handle.handle) (name : string) :
  (forall T : Ctypes.ctype,
     Handle.get_ctype_by_name lib name = Some T ->
     Z.of_nat (Ctypes.sizeof_type T) = Handle.get_size_by_name lib name) /\
  (is_Some (Handle.get_ctype_by_name lib name) <->
   Handle.get_size_by_name lib name ∈ [1; 2; 4]).
Proof.
  unfold Handle.get_ctype_by_name. split.
  - intros T H.
    apply ctypes_by_size_Some in H as [[-> ->] | [[-> ->] | [-> ->]]];
      reflexivity.
  - split.
    + intros [T H].
      apply ctypes_by_size_Some in H as [[-> _] | [[-> _] | [-> _]]];
        set_solver.
    + intros Hin.
      repeat (apply elem_of_cons in Hin as [-> | Hin];
              [eexists; reflexivity |]).
      apply elem_of_nil in Hin. destruct Hin.
Qed.

Lemma get_ctype_by_name_has_the_size_witness :
  Z.of_nat (Ctypes.sizeof_type Ctypes.c_uint16) =
  Handle.get_size_by_name (Some Handle.sample_lib) "atca_pair".
Proof.
  apply (get_ctype_by_name_has_the_size (Some Handle.sample_lib) "atca_pair").
  vm_compute. reflexivity.
Defined.

(** ** Marshalling of one value *)

Section MarshalValueFacts.

Import Ctypes Marshal.

Variable order : byteorder.

Lemma same_type_refl (T : ctype) : same_type T T = true.
Proof. unfold same_type. apply bool_decide_eq_true. reflexivity. Qed.

(** What [get_ctype_structure_instance] returns is an instance of the
    class it was asked for. *)
Lemma structure_instance_isinstance (structure : ctype) (value r : pyval) :
  get_ctype_structure_instance order structure value = Ok r ->
  isinstance r structure = true.
Proof.
  unfold get_ctype_structure_instance, get_ctype_structure_instance_.
  assert (forall args kw,
            (let* o := construct order structure args kw in Ok (PCData o))
              = Ok r -> isinstance r structure = true) as Hcall.
  { intros args kw H.
    destruct (construct order structure args kw) as [e | o] eqn:E;
      simpl in H; [discriminate |].
    injection H as <-. apply construct_shape in E as [E _].
    cbn [isinstance]. rewrite E. apply same_type_refl. }
  assert (forall z,
            (let* o := from_buffer_copy structure (c_uint_new order z) in
             Ok (PCData o)) = Ok r -> isinstance r structure = true) as Hcopy.
  { intros z H. unfold from_buffer_copy in H.
    destruct (sizeof (c_uint_new order z) <? sizeof_type structure)%nat;
      simpl in H; [discriminate |].
    injection H as <-. apply same_type_refl. }
  destruct value as [| b | z | t | bs | l | d | v | o];
    cbn [as_int isinstance negb]; eauto.
  destruct (same_type (ob_type o) structure) eqn:E; cbn [negb]; eauto.
  intros [= <-]. exact E.
Qed.

Lemma structure_instance_passthrough (structure : ctype) (r : pyval) :
  isinstance r structure = true ->
  get_ctype_structure_instance order structure r = Ok r.
Proof.
  unfold get_ctype_structure_instance, get_ctype_structure_instance_.
  destruct r; cbn [isinstance as_int]; try discriminate.
  intros ->. reflexivity.
Qed.

Lemma le_bytes_congr (n : nat) (z z' : Z) :
  z mod 256 ^ Z.of_nat n = z' mod 256 ^ Z.of_nat n ->
  le_bytes n z = le_bytes n z'.
Proof.
  revert z z'. induction n as [| n IH]; intros z z' H.
  - reflexivity.
  - rewrite Nat2Z.inj_succ, Z.pow_succ_r in H by lia.
    rewrite !Z.rem_mul_r in H by lia.
    pose proof (Z.mod_pos_bound z 256 ltac:(lia)).
    pose proof (Z.mod_pos_bound z' 256 ltac:(lia)).
    cbn [le_bytes]. f_equal; [lia |]. apply IH. lia.
Qed.

Lemma encode_wraps (n : nat) (z : Z) :
  encode order n (z mod 256 ^ Z.of_nat n) = encode order n z.
Proof.
  assert (le_bytes n (z mod 256 ^ Z.of_nat n) = le_bytes n z) as H.
  { apply le_bytes_congr. apply Z.mod_mod. lia. }
  unfold encode. rewrite H. reflexivity.
Qed.

End MarshalValueFacts.

(** X6. Whenever [get_ctype_structure_instance] returns, the result is an
    instance of the class it was given, whatever the kind of the value. *)
Theorem get_ctype_structure_instance_returns_instance
  (order : Ctypes.byteorder) (structure : Ctypes.ctype)
  (value r : Ctypes.pyval) :
  Marshal.get_ctype_structure_instance order structure value = Ok r ->
  exists o : Ctypes.cdata,
    r = Ctypes.PCData o /\
    Ctypes.type_id (Ctypes.ob_type o) = Ctypes.type_id structure.
Proof.
  intros H. apply structure_instance_isinstance in H.
  destruct r; try discriminate H.
  exists o. split; [reflexivity |].
  cbn [Ctypes.isinstance] in H. unfold Ctypes.same_type in H.
  apply bool_decide_eq_true in H. exact H.
Qed.

Lemma get_ctype_structure_instance_returns_instance_witness :
  exists o : Ctypes.cdata,
    Ctypes.PCData (Ctypes.CData Marshal.sample_word [5; 0; 0; 0])
      = Ctypes.PCData o /\
    Ctypes.type_id (Ctypes.ob_type o) = Ctypes.type_id Marshal.sample_word.
Proof.
  apply (get_ctype_structure_instance_returns_instance Ctypes.LittleEndian
           Marshal.sample_word (Ctypes.PEnum 5)).
  vm_compute. reflexivity.
Defined.

(** X7. [get_ctype_structure_instance] is idempotent: a value it returned
    is returned unchanged when it is converted again. *)
Theorem get_ctype_structure_instance_idempotent
  (order : Ctypes.byteorder) (structure : Ctypes.ctype)
  (value r : Ctypes.pyval) :
  Marshal.get_ctype_structure_instance order structure value = Ok r ->
  Marshal.get_ctype_structure_instance order structure r = Ok r.
Proof.
  intros H. apply structure_instance_passthrough.
  eapply structure_instance_isinstance, H.
Qed.

Lemma get_ctype_structure_instance_idempotent_witness :
  Marshal.get_ctype_structure_instance Ctypes.LittleEndian
    Marshal.sample_outer
    (Ctypes.PCData
       (Ctypes.CData Marshal.sample_outer [0x34; 0x12; 1; 2; 97; 98; 0; 0]))
  = Ok (Ctypes.PCData
          (Ctypes.CData Marshal.sample_outer
             [0x34; 0x12; 1; 2; 97; 98; 0; 0])).
Proof.
  apply (get_ctype_structure_instance_idempotent Ctypes.LittleEndian
           Marshal.sample_outer (Ctypes.PDict Marshal.sample_mapping)).
  vm_compute. reflexivity.
Defined.

(** X8. An integer is converted modulo 2^32: [z] and [z mod 2^32] give
    the same result, so a negative integer is read as its two's
    complement. A [bool] is converted as 0 or 1 and an enumerated value
    as its integer value. *)
Theorem get_ctype_structure_instance_wraps
  (order : Ctypes.byteorder) (structure : Ctypes.ctype) :
  (forall z : Z,
     Marshal.get_ctype_structure_instance order structure
       (Ctypes.PInt (z mod 2 ^ 32))
     = Marshal.get_ctype_structure_instance order structure (Ctypes.PInt z))
  /\
  Marshal.get_ctype_structure_instance order structure (Ctypes.PInt (-1))
  = Marshal.get_ctype_structure_instance order structure
      (Ctypes.PInt 0xFFFFFFFF) /\
  (forall b : bool,
     Marshal.get_ctype_structure_instance order structure (Ctypes.PBool b)
     = Marshal.get_ctype_structure_instance order structure
         (Ctypes.PInt (Z.b2z b))) /\
  (forall v : Z,
     Marshal.get_ctype_structure_instance order structure (Ctypes.PEnum v)
     = Marshal.get_ctype_structure_instance order structure (Ctypes.PInt v)).
Proof.
  assert (forall z : Z,
     Marshal.get_ctype_structure_instance order structure
       (Ctypes.PInt (z mod 2 ^ 32))
     = Marshal.get_ctype_structure_instance order structure (Ctypes.PInt z))
    as Hwrap.
  { intros z.
    unfold Marshal.get_ctype_structure_instance,
      Marshal.get_ctype_structure_instance_.
    cbn [Ctypes.as_int]. unfold Ctypes.c_uint_new.
    cbn [Ctypes.sizeof_type Ctypes.c_uint Ctypes.c_uint32 Ctypes.simple_size].
    rewrite <- (encode_wraps order 4 z). reflexivity. }
  split; [exact Hwrap |]. split; [| split].
  - rewrite <- (Hwrap (-1)). reflexivity.
  - reflexivity.
  - reflexivity.
Qed.

(** X9. Round trip of an integer through a structure of 4 bytes: the
    conversion succeeds, and the bytes of the result, read back as an
    unsigned integer in the byte order of the host, are the integer
    modulo 2^32. *)
Theorem integer_structure_bytes_roundtrip
  (order : Ctypes.byteorder) (structure : Ctypes.ctype) (z : Z) :
  Ctypes.sizeof_type structure = 4%nat ->
  exists o : Ctypes.cdata,
    Marshal.get_ctype_structure_instance order structure (Ctypes.PInt z)
      = Ok (Ctypes.PCData o) /\
    Ctypes.decode order (Marshal.ctypes_to_bytes o) = z mod 2 ^ 32.
Proof.
  intros H.
  exists (Ctypes.CData structure (Ctypes.encode order 4 z)). split.
  - unfold Marshal.get_ctype_structure_instance,
      Marshal.get_ctype_structure_instance_.
    cbn [Ctypes.as_int].
    rewrite from_buffer_copy_c_uint by lia. cbn [rbind].
    rewrite H, take_ge by (rewrite length_encode; lia). reflexivity.
  - rewrite ctypes_to_bytes_is_buffer. apply (decode_encode order 4 z).
Qed.

Lemma integer_structure_bytes_roundtrip_witness :
  exists o : Ctypes.cdata,
    Marshal.get_ctype_structure_instance Ctypes.BigEndian
      Marshal.sample_word (Ctypes.PInt (-2)) = Ok (Ctypes.PCData o) /\
    Ctypes.decode Ctypes.BigEndian (Marshal.ctypes_to_bytes o)
      = (-2) mod 2 ^ 32.
Proof.
  apply (integer_structure_bytes_roundtrip Ctypes.BigEndian
           Marshal.sample_word (-2)).
  reflexivity.
Defined.

(** ** The extended constructors *)

Section InitFacts.

Import Ctypes Marshal.

Variable order : byteorder.

Lemma kw_get_None (k : string) (kw : kwargs) :
  k ∉ keyword_names kw -> kw_get k kw = None.
Proof.
  induction kw as [| [k' v] kw IH]; intros H; simpl.
  - reflexivity.
  - unfold keyword_names in H. simpl in H.
    apply not_elem_of_cons in H as [Hne Hin].
    rewrite bool_decide_eq_false_2 by congruence. apply IH, Hin.
Qed.

Lemma kw_get_Some_name (k : string) (kw : kwargs) (v : pyval) :
  kw_get k kw = Some v -> k ∈ keyword_names kw.
Proof.
  induction kw as [| [k' v'] kw IH]; simpl; [discriminate |].
  unfold keyword_names. simpl. case_bool_decide as Hk.
  - intros _. subst k'. apply list_elem_of_here.
  - intros H. apply list_elem_of_further, IH, H.
Qed.

Lemma kw_set_names (k : string) (r v : pyval) (kw : kwargs) :
  kw_get k kw = Some v -> keyword_names (kw_set k r kw) = keyword_names kw.
Proof.
  induction kw as [| [k' v'] kw IH]; simpl; [discriminate |].
  case_bool_decide as Hk.
  - intros _. subst k'. reflexivity.
  - intros H.
    change (k' :: keyword_names (kw_set k r kw) = k' :: keyword_names kw).
    rewrite (IH H). reflexivity.
Qed.


(** Keywords that name no field pass the loop over [_fields_] as they
    are. *)
Lemma marshal_fields_untouched
  (call : ctype -> list pyval -> kwargs -> result cdata)
  (fields : list (string * ctype * nat)) (kw : kwargs) :
  (forall n, n ∈ field_names fields -> n ∉ keyword_names kw) ->
  marshal_fields order call fields kw = Ok kw.
Proof.
  induction fields as [| [[n ft] off] fields IH]; intros H; simpl.
  - reflexivity.
  - rewrite (kw_get_None n kw)
      by (apply H; unfold field_names; simpl; apply list_elem_of_here).
    simpl. apply IH. intros m Hm. apply H.
    unfold field_names. simpl. apply list_elem_of_further, Hm.
Qed.


Lemma marshal_fields_names
  (call : ctype -> list pyval -> kwargs -> result cdata)
  (fields : list (string * ctype * nat)) (kw kw' : kwargs) :
  marshal_fields order call fields kw = Ok kw' ->
  keyword_names kw' = keyword_names kw.
Proof.
  revert kw. induction fields as [| [[n ft] off] fields IH]; intros kw;
    simpl.
  - intros [= <-]. reflexivity.
  - destruct (kw_get n kw) as [v |] eqn:E; simpl; [| apply IH].
    assert (forall x : result pyval,
              (let* kw1 := (let* r := x in Ok (kw_set n r kw)) in
               marshal_fields order call fields kw1) = Ok kw' ->
              keyword_names kw' = keyword_names kw) as Hstep.
    { intros [e | r]; simpl; [discriminate |].
      intros H. apply IH in H. rewrite H. eapply kw_set_names, E. }
    destruct (is_union ft); [apply Hstep |].
    destruct (is_structure ft); [apply Hstep |].
    destruct (is_array ft); [apply Hstep |].
    simpl. apply IH.
Qed.

(** One keyword that names a field of structure or union type, in a class
    with distinct field names: the loop replaces its value by the
    marshalled one and nothing else. *)
Lemma marshal_fields_single
  (call : ctype -> list pyval -> kwargs -> result cdata)
  (fields : list (string * ctype * nat))
  (fname : string) (ft : ctype) (off : nat) (v : pyval) :
  NoDup (field_names fields) ->
  (fname, ft, off) ∈ fields ->
  is_union ft || is_structure ft = true ->
  marshal_fields order call fields [(fname, v)] =
    let* r := get_ctype_structure_instance_ order call ft v in
    Ok [(fname, r)].
Proof.
  intros Hnd Hin Hk. induction fields as [| [[n ft'] off'] fields IH].
  - apply elem_of_nil in Hin. destruct Hin.
  - unfold field_names in Hnd. simpl in Hnd.
    apply NoDup_cons in Hnd as [Hn Hnd].
    apply elem_of_cons in Hin as [Heq | Hin].
    + injection Heq as <- <- <-. cbn [marshal_fields kw_get].
      rewrite bool_decide_eq_true_2 by reflexivity.
      assert (forall x : result pyval,
                (let* kw1 := (let* r := x in
                              Ok (kw_set fname r [(fname, v)])) in
                 marshal_fields order call fields kw1)
                = let* r := x in Ok [(fname, r)]) as Hcont.
      { intros [e | r]; cbn [rbind kw_set]; [reflexivity |].
        rewrite bool_decide_eq_true_2 by reflexivity.
        apply marshal_fields_untouched. intros m Hm.
        unfold keyword_names. simpl. intros Hmem.
        apply list_elem_of_singleton in Hmem. subst m. exact (Hn Hm). }
      destruct (is_union ft); [apply Hcont |].
      destruct (is_structure ft); [apply Hcont | discriminate Hk].
    + assert (n <> fname) as Hne.
      { intros ->. apply Hn. unfold field_names.
        apply list_elem_of_fmap. exists (fname, ft, off).
        split; [reflexivity | exact Hin]. }
      cbn [marshal_fields kw_get].
      rewrite bool_decide_eq_false_2 by congruence. simpl.
      apply IH; assumption.
Qed.

End InitFacts.

(** X10. The loop of [AtcaStructure.__init__] and [AtcaUnion.__init__]
    over [_fields_] changes values only: when it succeeds, the keywords
    it hands on to the base constructor have the names of the keywords it
    received, in the same order. *)
Theorem marshal_fields_keeps_keyword_names (order : Ctypes.byteorder)
  (fields : list (string * Ctypes.ctype * nat)) (kw kw' : Ctypes.kwargs) :
  Marshal.marshal_fields order (Marshal.construct order) fields kw = Ok kw' ->
  keyword_names kw' = keyword_names kw /\ length kw' = length kw.
Proof.
  intros H. apply marshal_fields_names in H. split; [exact H |].
  unfold keyword_names in H.
  rewrite <- (length_fmap fst kw'), H. apply length_fmap.
Qed.

Lemma marshal_fields_keeps_keyword_names_witness :
  keyword_names
    [("id", Ctypes.PInt 0x1234);
     ("inner", Ctypes.PCData (Ctypes.CData Marshal.sample_inner [1; 2]));
     ("tag", Ctypes.PBytes [97; 98])]
  = keyword_names Marshal.sample_mapping.
Proof.
  apply (marshal_fields_keeps_keyword_names Ctypes.LittleEndian
           (Ctypes.fields_of Marshal.sample_outer) Marshal.sample_mapping).
  vm_compute. reflexivity.
Defined.



(** X12. In a subclass of [AtcaStructure] or [AtcaUnion] with distinct
    field names, a mapping given for a field of structure or union type
    is the same as the instance the field's class builds from that
    mapping; and when the field's class refuses the mapping, the outer
    call raises the same exception. *)
Theorem nested_mapping_is_nested_instance (order : Ctypes.byteorder)
  (b : Ctypes.base) (cname : string) (size : nat)
  (fields : list (string * Ctypes.ctype * nat))
  (fname : string) (ft : Ctypes.ctype) (off : nat) (d : Ctypes.kwargs) :
  Marshal.is_atca b = true ->
  NoDup (field_names fields) ->
  (fname, ft, off) ∈ fields ->
  Marshal.is_union ft || Marshal.is_structure ft = true ->
  let T := Ctypes.Class b cname size fields in
  (forall inner : Ctypes.cdata,
     Marshal.construct order ft [] d = Ok inner ->
     Marshal.construct order T [] [(fname, Ctypes.PDict d)] =
     Marshal.construct order T [] [(fname, Ctypes.PCData inner)]) /\
  (forall e : exception,
     Marshal.construct order ft [] d = Raise e ->
     Marshal.construct order T [] [(fname, Ctypes.PDict d)] = Raise e).
Proof.
  intros Hb Hnd Hin Hk T. unfold T. cbn [Marshal.construct]. rewrite Hb.
  rewrite (marshal_fields_single order _ fields fname ft off
             (Ctypes.PDict d) Hnd Hin Hk).
  split.
  - intros inner H.
    rewrite (marshal_fields_single order _ fields fname ft off
               (Ctypes.PCData inner) Hnd Hin Hk).
    change (Marshal.get_ctype_structure_instance_ order
              (Marshal.construct order))
      with (Marshal.get_ctype_structure_instance order).
    rewrite (structure_instance_passthrough order ft (Ctypes.PCData inner)).
    + unfold Marshal.get_ctype_structure_instance,
        Marshal.get_ctype_structure_instance_.
      rewrite H. reflexivity.
    + apply construct_shape in H as [H _].
      cbn [Ctypes.isinstance]. rewrite H. apply same_type_refl.
  - intros e H. unfold Marshal.get_ctype_structure_instance_.
    rewrite H. reflexivity.
Qed.

Lemma nested_mapping_is_nested_instance_witness :
  Marshal.construct Ctypes.LittleEndian Marshal.sample_outer []
    [("inner", Ctypes.PDict [("a", Ctypes.PInt 1); ("b", Ctypes.PInt 2)])]
  = Marshal.construct Ctypes.LittleEndian Marshal.sample_outer []
      [("inner", Ctypes.PCData (Ctypes.CData Marshal.sample_inner [1; 2]))].
Proof.
  apply (nested_mapping_is_nested_instance Ctypes.LittleEndian
           Ctypes.AtcaStructure "Outer" 8
           (Ctypes.fields_of Marshal.sample_outer)
           "inner" Marshal.sample_inner 2%nat
           [("a", Ctypes.PInt 1); ("b", Ctypes.PInt 2)]).
  - reflexivity.
  - apply (bool_decide_unpack _). vm_compute. exact I.
  - apply list_elem_of_further, list_elem_of_here.
  - reflexivity.
  - vm_compute. reflexivity.
Defined.

(** ** Marshalling of arrays *)

Section ArrayFacts.

Import Ctypes Marshal.

Variable order : byteorder.

Lemma encode_ascii_codes (s : string) :
  Forall (fun c => c < 128) (code_points s) ->
  encode_ascii s = Ok (code_points s).
Proof.
  induction s as [| c s IH]; intros H; simpl.
  - reflexivity.
  - simpl in H. apply Forall_cons in H as [Hc Hs].
    destruct (Z.ltb_spec (Z.of_N (N_of_ascii c)) 128); [| lia].
    rewrite (IH Hs). reflexivity.
Qed.

Lemma encode_ascii_refused (s : string) :
  Exists (fun c => 128 <= c) (code_points s) ->
  encode_ascii s = Raise UnicodeEncodeError.
Proof.
  induction s as [| c s IH]; intros H; simpl in *.
  - apply Exists_nil in H. destruct H.
  - destruct (Z.ltb_spec (Z.of_N (N_of_ascii c)) 128) as [Hlt | Hge];
      [| reflexivity].
    apply Exists_cons in H as [Hc | Hs]; [lia |].
    rewrite (IH Hs). reflexivity.
Qed.

Lemma leading_byte_encode (z : Z) :
  take 1 (encode order 4 z) = [leading_byte order z].
Proof.
  destruct order; cbn [encode le_bytes rev app take leading_byte].
  - reflexivity.
  - rewrite !Z.div_div by lia. reflexivity.
Qed.

(** An integer becomes an instance of [c_uint8] that holds the leading
    byte of its 4-byte representation. *)
Lemma uint8_instance_of_int
  (call : ctype -> list pyval -> kwargs -> result cdata) (z : Z) :
  get_ctype_structure_instance_ order call c_uint8 (PInt z) =
    Ok (PCData (CData c_uint8 [leading_byte order z])).
Proof.
  unfold get_ctype_structure_instance_. cbn [as_int].
  rewrite from_buffer_copy_c_uint by (simpl; lia). cbn [rbind].
  change (sizeof_type c_uint8) with 1%nat.
  rewrite leading_byte_encode. reflexivity.
Qed.

Lemma uint8_instances_of_ints
  (call : ctype -> list pyval -> kwargs -> result cdata) (zs : list Z) :
  mapM (get_ctype_structure_instance_ order call c_uint8) (PInt <$> zs) =
    Ok ((fun z => PCData (CData c_uint8 [leading_byte order z])) <$> zs).
Proof.
  induction zs as [| z zs IH].
  - reflexivity.
  - cbn [fmap list_fmap mapM]. rewrite uint8_instance_of_int. cbn [rbind].
    change (list_fmap Z pyval PInt zs) with (PInt <$> zs).
    rewrite IH. reflexivity.
Qed.

(** Items that each store one byte into an array of [c_uint8]. *)
Lemma set_items_bytes (items : list pyval) (bs : list Z) (n : nat) :
  Forall2 (fun a b => item_set order c_uint8 a = Ok [b]) items bs ->
  forall (i : nat) (buf : list Z),
    length buf = n -> (i + length bs <= n)%nat ->
    set_items order c_uint8 n i buf items =
      Ok (take i buf ++ bs ++ drop (i + length bs) buf).
Proof.
  induction 1 as [| a b items bs Hab Hrest IH]; intros i buf Hn Hi.
  - simpl. rewrite Nat.add_0_r, take_drop. reflexivity.
  - simpl in Hi. cbn [set_items].
    destruct (Nat.leb_spec n i); [lia |].
    rewrite Hab. cbn [rbind sizeof_type c_uint8 simple_size take].
    rewrite Nat.mul_1_r, write_at_byte by lia.
    rewrite IH; [| rewrite length_insert; exact Hn | lia].
    rewrite (take_S_r _ i b) by (apply list_lookup_insert_eq; lia).
    rewrite take_insert_ge by lia.
    rewrite drop_insert_lt by lia.
    rewrite <- app_assoc. simpl.
    replace (S (i + length bs))%nat with (i + S (length bs))%nat by lia.
    reflexivity.
Qed.

(** More items than the array has places: the store past the end is
    refused. *)
Lemma set_items_overflow (items : list pyval) (bs : list Z) (n : nat) :
  Forall2 (fun a b => item_set order c_uint8 a = Ok [b]) items bs ->
  forall (i : nat) (buf : list Z),
    (i <= n)%nat -> (n < i + length items)%nat ->
    set_items order c_uint8 n i buf items = Raise IndexError.
Proof.
  induction 1 as [| a b items bs Hab Hrest IH]; intros i buf Hle Hi.
  - simpl in Hi. lia.
  - simpl in Hi. cbn [set_items].
    destruct (Nat.leb_spec n i); [reflexivity |].
    rewrite Hab. cbn [rbind]. apply IH; lia.
Qed.

Lemma instances_store_bytes (f : Z -> Z) (zs : list Z) :
  Forall2 (fun a b => item_set order c_uint8 a = Ok [b])
    ((fun z => PCData (CData c_uint8 [f z])) <$> zs) (f <$> zs).
Proof.
  induction zs as [| z zs IH]; constructor; [reflexivity | exact IH].
Qed.

Lemma ints_store_bytes (zs : list Z) :
  Forall2 (fun a b => item_set order c_uint8 a = Ok [b])
    (PInt <$> zs) ((fun z => z mod 256) <$> zs).
Proof.
  induction zs as [| z zs IH]; constructor; [| exact IH].
  unfold item_set. cbn [slot_set c_uint8 simple_set as_int simple_size].
  rewrite encode_one_byte. reflexivity.
Qed.

End ArrayFacts.

(** X13. For an array of [c_char], [get_ctype_array_instance] returns
    bytes and never an array: a text of ASCII characters becomes its code
    points, a text with any other character is refused with
    [UnicodeEncodeError], and bytes are returned as they are. The length
    of the array plays no part: a text longer than the array passes
    here. *)
Theorem get_ctype_array_instance_of_text (order : Ctypes.byteorder)
  (n : nat) :
  (forall s : string,
     Forall (fun c => c < 128) (code_points s) ->
     Marshal.get_ctype_array_instance order
       (Ctypes.Array Ctypes.c_char n) (Ctypes.PStr s)
     = Ok (Ctypes.PBytes (code_points s))) /\
  (forall s : string,
     Exists (fun c => 128 <= c) (code_points s) ->
     Marshal.get_ctype_array_instance order
       (Ctypes.Array Ctypes.c_char n) (Ctypes.PStr s)
     = Raise UnicodeEncodeError) /\
  (forall bs : list Z,
     Marshal.get_ctype_array_instance order
       (Ctypes.Array Ctypes.c_char n) (Ctypes.PBytes bs)
     = Ok (Ctypes.PBytes bs)).
Proof.
  unfold Marshal.get_ctype_array_instance, Marshal.get_ctype_array_instance_.
  rewrite same_type_refl. split; [| split].
  - intros s H. rewrite (encode_ascii_codes s H). reflexivity.
  - intros s H. rewrite (encode_ascii_refused s H). reflexivity.
  - reflexivity.
Qed.

Lemma get_ctype_array_instance_of_text_witness :
  Marshal.get_ctype_array_instance Ctypes.LittleEndian
    (Ctypes.Array Ctypes.c_char 2) (Ctypes.PStr "abc")
  = Ok (Ctypes.PBytes [97; 98; 99]) /\
  Marshal.get_ctype_array_instance Ctypes.LittleEndian
    (Ctypes.Array Ctypes.c_char 2)
    (Ctypes.PStr (String (ascii_of_N 200) EmptyString))
  = Raise UnicodeEncodeError.
Proof.
  pose proof (get_ctype_array_instance_of_text Ctypes.LittleEndian 2)
    as (Hok & Hbad & _).
  split.
  - apply (Hok "abc"). repeat constructor.
  - apply (Hbad (String (ascii_of_N 200) EmptyString)).
    apply Exists_cons_hd. vm_compute. discriminate.
Defined.

(** X14. For an array of [n] elements of [c_uint8] and a list of
    integers, [get_ctype_array_instance] builds the array when the list
    has at most [n] items: element [i] is the byte at the lowest address
    of the 4-byte representation of item [i] (its low byte on a
    little-endian host, the high byte of the 32-bit value on a big-endian
    one) and the elements after the list are zero. A longer list is
    refused with [IndexError]. *)
Theorem get_ctype_array_instance_of_integers (order : Ctypes.byteorder)
  (n : nat) (zs : list Z) :
  ((length zs <= n)%nat ->
   Marshal.get_ctype_array_instance order
     (Ctypes.Array Ctypes.c_uint8 n) (Ctypes.PList (Ctypes.PInt <$> zs))
   = Ok (Ctypes.PCData
           (Ctypes.CData (Ctypes.Array Ctypes.c_uint8 n)
              ((leading_byte order <$> zs)
                 ++ replicate (n - length zs) 0)))) /\
  ((n < length zs)%nat ->
   Marshal.get_ctype_array_instance order
     (Ctypes.Array Ctypes.c_uint8 n) (Ctypes.PList (Ctypes.PInt <$> zs))
   = Raise IndexError).
Proof.
  unfold Marshal.get_ctype_array_instance, Marshal.get_ctype_array_instance_.
  change (Ctypes.same_type Ctypes.c_uint8 Ctypes.c_char) with false.
  cbn [Ctypes.py_list rbind]. rewrite uint8_instances_of_ints. cbn [rbind].
  cbn [Marshal.construct]. unfold Ctypes.Array_init, Ctypes.new.
  cbn [Ctypes.b_ptr Ctypes.ob_type Ctypes.sizeof_type Ctypes.c_uint8
       Ctypes.simple_size].
  rewrite Nat.mul_1_r.
  pose proof (instances_store_bytes order (leading_byte order) zs) as Hst.
  split.
  - intros Hlen.
    rewrite (set_items_bytes order _ _ n Hst 0 (replicate n 0));
      [| apply length_replicate | rewrite length_fmap; lia].
    cbn [rbind take app]. rewrite length_fmap, drop_replicate. reflexivity.
  - intros Hlen.
    rewrite (set_items_overflow order _ _ n Hst 0 (replicate n 0))
      by (rewrite ?length_fmap; lia).
    reflexivity.
Qed.

Lemma get_ctype_array_instance_of_integers_witness :
  Marshal.get_ctype_array_instance Ctypes.LittleEndian
    (Ctypes.Array Ctypes.c_uint8 3)
    (Ctypes.PList [Ctypes.PInt 1; Ctypes.PInt 258])
  = Ok (Ctypes.PCData
          (Ctypes.CData (Ctypes.Array Ctypes.c_uint8 3) [1; 2; 0])) /\
  Marshal.get_ctype_array_instance Ctypes.BigEndian
    (Ctypes.Array Ctypes.c_uint8 1)
    (Ctypes.PList [Ctypes.PInt 1; Ctypes.PInt 2])
  = Raise IndexError.
Proof.
  split.
  - apply (get_ctype_array_instance_of_integers Ctypes.LittleEndian 3
             [1; 258]).
    simpl. lia.
  - apply (get_ctype_array_instance_of_integers Ctypes.BigEndian 1 [1; 2]).
    simpl. lia.
Defined.

(** ** Buffers, written and read back *)



(** X16. [ctypes_to_bytes] returns exactly [sizeof(obj)] bytes, the bytes
    of the object in order, for an object of any class; for a fresh
    instance of a class they are [sizeof] of the class zeros. *)
Theorem ctypes_to_bytes_exact (obj : Ctypes.cdata) (T : Ctypes.ctype) :
  length (Marshal.ctypes_to_bytes obj) = Ctypes.sizeof obj /\
  Marshal.ctypes_to_bytes obj = Ctypes.b_ptr obj /\
  Marshal.ctypes_to_bytes (Ctypes.new T)
  = replicate (Ctypes.sizeof_type T) 0.
Proof.
  rewrite !ctypes_to_bytes_is_buffer. repeat split; reflexivity.
Qed.

(** X17. A list of integers of any size is accepted by
    [create_byte_buffer]: every item is stored modulo 256, none is
    refused. Round trip: for a sequence of bytes, [ctypes_to_bytes] of
    the buffer that [create_byte_buffer] builds is the sequence. *)
Theorem create_byte_buffer_wraps_and_reads_back (order : Ctypes.byteorder) :
  (forall zs : list Z,
     Marshal.create_byte_buffer order (Ctypes.PList (Ctypes.PInt <$> zs)) =
       Ok (Ctypes.CData (Ctypes.Array Ctypes.c_uint8 (length zs))
             ((fun z => z mod 256) <$> zs))) /\
  (forall s : list Z,
     Forall (fun z => Ctypes.is_byte z = true) s ->
     exists buf : Ctypes.cdata,
       Marshal.create_byte_buffer order (Ctypes.PBytes s) = Ok buf /\
       Marshal.ctypes_to_bytes buf = s).
Proof.
  split.
  - intros zs. unfold Marshal.create_byte_buffer.
    cbn [Ctypes.as_int Ctypes.py_len Ctypes.py_list rbind].
    rewrite length_fmap. cbn [Marshal.construct].
    unfold Ctypes.Array_init, Ctypes.new.
    cbn [Ctypes.b_ptr Ctypes.ob_type Ctypes.sizeof_type Ctypes.c_uint8
         Ctypes.simple_size].
    rewrite Nat.mul_1_r.
    rewrite (set_items_bytes order _ _ (length zs)
               (ints_store_bytes order zs) 0 (replicate (length zs) 0));
      [| apply length_replicate | rewrite length_fmap; lia].
    cbn [rbind take app].
    rewrite drop_ge, app_nil_r
      by (rewrite length_replicate, length_fmap; lia).
    reflexivity.
  - intros s Hs. eexists. split.
    + unfold Marshal.create_byte_buffer.
      cbn [Ctypes.as_int Ctypes.py_len Ctypes.py_list rbind].
      apply construct_uint8_array, Hs.
    + apply ctypes_to_bytes_is_buffer.
Qed.

Lemma create_byte_buffer_wraps_and_reads_back_witness :
  exists buf : Ctypes.cdata,
    Marshal.create_byte_buffer Ctypes.LittleEndian (Ctypes.PBytes [3; 200])
      = Ok buf /\
    Marshal.ctypes_to_bytes buf = [3; 200].
Proof.
  apply (create_byte_buffer_wraps_and_reads_back Ctypes.LittleEndian).
  repeat constructor.
Defined.

(** X18. [create_byte_buffer] refuses a negative size with [ValueError];
    and whenever it returns, the result is an array of [c_uint8] that
    owns as many bytes as it has elements: the size asked for, or the
    length of the sequence. *)
Theorem create_byte_buffer_result (order : Ctypes.byteorder) :
  (forall z : Z, z < 0 ->
     Marshal.create_byte_buffer order (Ctypes.PInt z) = Raise ValueError) /\
  (forall (v : Ctypes.pyval) (buf : Ctypes.cdata),
     Marshal.create_byte_buffer order v = Ok buf ->
     exists n : nat,
       Ctypes.ob_type buf = Ctypes.Array Ctypes.c_uint8 n /\
       Ctypes.sizeof buf = n /\
       match Ctypes.as_int v with
       | Some z => 0 <= z /\ n = Z.to_nat z
       | None => Ctypes.py_len v = Ok n
       end).
Proof.
  split.
  - intros z Hz. unfold Marshal.create_byte_buffer. cbn [Ctypes.as_int].
    destruct (Z.ltb_spec z 0); [reflexivity | lia].
  - intros v buf. unfold Marshal.create_byte_buffer.
    destruct (Ctypes.as_int v) as [z |].
    + destruct (Z.ltb_spec z 0); [discriminate |].
      intros H0. apply construct_shape in H0 as [Ht Hs].
      exists (Z.to_nat z). rewrite Ht, Hs.
      cbn [Ctypes.sizeof_type Ctypes.c_uint8 Ctypes.simple_size].
      repeat split; lia.
    + destruct (Ctypes.py_len v) as [e | n]; cbn [rbind]; [discriminate |].
      destruct (Ctypes.py_list order v) as [e | items]; cbn [rbind];
        [discriminate |].
      intros H0. apply construct_shape in H0 as [Ht Hs].
      exists n. rewrite Ht, Hs.
      cbn [Ctypes.sizeof_type Ctypes.c_uint8 Ctypes.simple_size].
      repeat split; lia.
Qed.

Lemma create_byte_buffer_result_witness :
  Marshal.create_byte_buffer Ctypes.LittleEndian (Ctypes.PInt (-3))
  = Raise ValueError.
Proof.
  apply (create_byte_buffer_result Ctypes.LittleEndian). lia.
Defined.

(** ** Boxes in boxes *)

Section NestedReferenceFacts.

Import Reference.

Variable plain : Type.
Variable compare : cmpop -> plain -> plain -> result bool.
Variable plain_int : plain -> result Z.
Variable plain_str : plain -> result string.

Lemma richcmp_unbox_left (op : cmpop) (b : object plain) :
  forall a : object plain,
    richcmp plain compare op a b =
    richcmp plain compare op (Plain (unbox plain a)) b.
Proof.
  fix IH 1. intros [p | [v]].
  - reflexivity.
  - cbn [richcmp unbox]. apply IH.
Qed.

Lemma int_unbox :
  forall a : object plain,
    int plain plain_int a = plain_int (unbox plain a).
Proof.
  fix IH 1. intros [p | [v]].
  - reflexivity.
  - cbn [int unbox]. apply IH.
Qed.

Lemma str_unbox :
  forall a : object plain,
    str plain plain_str a = plain_str (unbox plain a).
Proof.
  fix IH 1. intros [p | [v]].
  - reflexivity.
  - cbn [str unbox]. apply IH.
Qed.

End NestedReferenceFacts.

(** X19. However deep a value is boxed in [AtcaReference], a comparison
    with a plain value, [int] and [str] act on the innermost plain
    value. With the box on the right of a plain value, and between two
    boxes, the swapped comparison is made on the innermost values. *)
Theorem AtcaReference_acts_as_innermost_value (plain : Type)
  (compare : Reference.cmpop -> plain -> plain -> result bool)
  (plain_int : plain -> result Z) (plain_str : plain -> result string)
  (a : Reference.object plain) :
  (forall (op : Reference.cmpop) (w : plain),
     Reference.richcmp plain compare op a (Reference.Plain w)
     = compare op (Reference.unbox plain a) w) /\
  Reference.int plain plain_int a = plain_int (Reference.unbox plain a) /\
  Reference.str plain plain_str a = plain_str (Reference.unbox plain a) /\
  Reference.__str__ plain plain_str (Reference.AtcaReference a)
    = plain_str (Reference.unbox plain a) /\
  (forall (op : Reference.cmpop) (r : Reference.reference plain),
     Reference.richcmp plain compare op a (Reference.Boxed r)
     = compare (Reference.swapped op)
         (Reference.unbox plain (Reference.Boxed r))
         (Reference.unbox plain a)).
Proof.
  split; [| split; [| split; [| split]]].
  - intros op w. rewrite richcmp_unbox_left. reflexivity.
  - apply int_unbox.
  - apply str_unbox.
  - unfold Reference.__str__. cbn [Reference.value]. apply str_unbox.
  - intros op r. rewrite richcmp_unbox_left. reflexivity.
Qed.
